(** * autogenstudio/chatmanager.py: the chat dispatcher and the WebSocket
      connection registry

    A shallow embedding of the two classes of [chatmanager.py]:

    - [AutoGenChatManager] ([send], [chat], [_generate_output]), and
    - [WebSocketConnectionManager] ([connect], [disconnect],
      [disconnect_all], [send_message], [broadcast]).

    Python methods become computations in a small state-and-exception monad.
    The state is kept when an exception is raised, as Python keeps the
    mutations made before a [raise].  What the module imports from
    elsewhere (the FastAPI socket, [WorkflowManager], the helpers of
    [utils], [os], [time], [json]) is taken as a parameter, gathered in the
    records [Transport] and [Externals].  Calls to [print] only write to
    standard output and are left out. *)

From Stdlib Require Import List String Ascii ZArith Bool Arith Lia PrimFloat.
Import ListNotations.
Local Open Scope string_scope.
Local Open Scope list_scope.
Set Warnings "-register-all".

(** ** Python values *)

(** The JSON-like values the module passes around: messages, trace entries,
    workflow configurations. *)
Inductive value : Type :=
| VNone
| VBool (b : bool)
| VInt (z : Z)
| VFloat (f : float)
| VStr (s : string)
| VList (l : list value)
| VDict (d : list (string * value)).

(** The exceptions the module meets, all of them subclasses of Python's
    [Exception]. *)
Inductive exn : Type :=
| WebSocketDisconnect
| ConnectionClosedOK
| ConnectionClosedError
| TypeError (msg : string)
| ValueError (msg : string)
| KeyError (key : string)
| IndexError
| OSError (msg : string)
| Full
| OtherException (name : string).

(** ** The monad *)

(** How a call ends: it returns, it raises, or it waits for ever on a lock
    that nobody releases. *)
Inductive result (A : Type) : Type :=
| Returned (a : A)
| Raised (e : exn)
| Blocked.
Arguments Returned {A} a.
Arguments Raised {A} e.
Arguments Blocked {A}.

Definition M (S A : Type) : Type := S -> result A * S.

Definition ret {S A : Type} (a : A) : M S A := fun s => (Returned a, s).

Definition bind {S A B : Type} (m : M S A) (k : A -> M S B) : M S B :=
  fun s =>
    match m s with
    | (Returned a, s') => k a s'
    | (Raised e, s') => (Raised e, s')
    | (Blocked, s') => (Blocked, s')
    end.

Definition raise {S A : Type} (e : exn) : M S A := fun s => (Raised e, s).

Definition gets {S A : Type} (f : S -> A) : M S A := fun s => (Returned (f s), s).

Definition modify {S : Type} (f : S -> S) : M S unit := fun s => (Returned tt, f s).

(** [try: body except ...: handler].  [handler e] is [None] when no
    [except] clause matches [e], which then propagates. *)
Definition try_except {S A : Type} (body : M S A) (handler : exn -> option (M S A))
  : M S A :=
  fun s =>
    match body s with
    | (Raised e, s') =>
        match handler e with
        | Some h => h s'
        | None => (Raised e, s')
        end
    | r => r
    end.

(** A computation that cannot fail in the monad, from a function that
    returns either an exception or a value. *)
Definition lift_sum {S A : Type} (r : exn + A) : M S A :=
  match r with
  | inl e => raise e
  | inr a => ret a
  end.

Declare Scope monad_scope.
Delimit Scope monad_scope with monad.
Notation "x <- c1 ;; c2" := (bind c1 (fun x => c2))
  (at level 61, c1 at next level, right associativity) : monad_scope.
Notation "c1 ;; c2" := (bind c1 (fun _ => c2))
  (at level 61, right associativity) : monad_scope.
Local Open Scope monad_scope.

(** [for x in l: body x] *)
Fixpoint for_each {S A : Type} (l : list A) (body : A -> M S unit) : M S unit :=
  match l with
  | [] => ret tt
  | x :: rest => body x ;; for_each rest body
  end.

(** ** WebSocketConnectionManager *)

(** A socket handle is a Python object, compared by identity: Starlette's
    connection objects are equal only to themselves. *)
Definition WebSocket : Type := nat.

(** [asyncio.Lock]: the one bit of its state that matters to a caller. *)
Record Lock : Type := { locked : bool }.

Record WebSocketConnectionManager : Type := {
  active_connections : list (WebSocket * string);
  active_connections_lock : option Lock
}.

(** What a run of the manager does to the outside and to its registry, in
    the order it does it. *)
Inductive event : Type :=
| EvAccept (websocket : WebSocket)
| EvAcquire
| EvRelease
| EvAppend (websocket : WebSocket) (client_id : string)
| EvRemove (websocket : WebSocket)
| EvSendJson (message : value) (websocket : WebSocket) (raised : option exn).

Record world : Type := {
  manager : WebSocketConnectionManager;
  trace : list event
}.

(** The peers, as seen through the FastAPI socket: whether the accept
    handshake and a write succeed ([None]) or raise, and the result of the
    test [connection.client_state == websockets.protocol.State.OPEN], which
    compares values of two types declared outside this module. *)
Record Transport : Type := {
  accept : WebSocket -> option exn;
  send_json : value -> WebSocket -> option exn;
  client_state_is_OPEN : WebSocket -> bool
}.

(** [WebSocketConnectionManager.__init__] *)
Definition init (active_connections : option (list (WebSocket * string)))
    (active_connections_lock : option Lock) : WebSocketConnectionManager :=
  {| active_connections :=
       match active_connections with
       | None => []
       | Some l => l
       end;
     active_connections_lock := active_connections_lock |}.

Definition log (e : event) : M world unit :=
  modify (fun w => {| manager := manager w; trace := trace w ++ [e] |}).

Definition set_active_connections (l : list (WebSocket * string)) : M world unit :=
  modify (fun w =>
    {| manager := {| active_connections := l;
                     active_connections_lock := active_connections_lock (manager w) |};
       trace := trace w |}).

Definition set_locked (b : bool) : M world unit :=
  modify (fun w =>
    {| manager := {| active_connections := active_connections (manager w);
                     active_connections_lock := Some {| locked := b |} |};
       trace := trace w |}).

(** [async with self.active_connections_lock: body].  Entering the block
    with no lock object raises; entering it while the lock is held waits;
    leaving it, normally or by an exception, releases the lock. *)
Definition with_lock {A : Type} (body : M world A) : M world A :=
  fun w =>
    match active_connections_lock (manager w) with
    | None =>
        (Raised (TypeError "'NoneType' object does not support the asynchronous context manager protocol"), w)
    | Some l =>
        if locked l then (Blocked, w)
        else
          match (set_locked true ;; log EvAcquire ;; body) w with
          | (Blocked, w') => (Blocked, w')
          | (r, w') =>
              match (set_locked false ;; log EvRelease) w' with
              | (_, w'') => (r, w'')
              end
          end
    end.

(** [await websocket.accept()] *)
Definition websocket_accept (tr : Transport) (websocket : WebSocket) : M world unit :=
  match accept tr websocket with
  | Some e => raise e
  | None => log (EvAccept websocket)
  end.

(** [await websocket.send_json(message)] *)
Definition websocket_send_json (tr : Transport) (message : value) (websocket : WebSocket)
  : M world unit :=
  log (EvSendJson message websocket (send_json tr message websocket)) ;;
  match send_json tr message websocket with
  | Some e => raise e
  | None => ret tt
  end.

Definition connect (tr : Transport) (websocket : WebSocket) (client_id : string)
  : M world unit :=
  websocket_accept tr websocket ;;
  with_lock (
    l <- gets (fun w => active_connections (manager w)) ;;
    set_active_connections (l ++ [(websocket, client_id)]) ;;
    log (EvAppend websocket client_id)).

Definition disconnect (websocket : WebSocket) : M world unit :=
  with_lock (
    try_except (
      l <- gets (fun w => active_connections (manager w)) ;;
      set_active_connections
        (filter (fun conn => negb (Nat.eqb (fst conn) websocket)) l) ;;
      log (EvRemove websocket))
    (fun e => match e with
              | ValueError _ => Some (ret tt)
              | _ => None
              end)).

Definition disconnect_all : M world unit :=
  snapshot <- gets (fun w => active_connections (manager w)) ;;
  for_each snapshot (fun conn => disconnect (fst conn)).

Definition send_message (tr : Transport) (message : value) (websocket : WebSocket)
  : M world unit :=
  try_except
    (with_lock (websocket_send_json tr message websocket))
    (fun e => match e with
              | WebSocketDisconnect => Some (disconnect websocket)
              | ConnectionClosedOK => Some (disconnect websocket)
              | _ => Some (disconnect websocket)
              end).

Definition broadcast (tr : Transport) (message : value) : M world unit :=
  let message_dict := VDict [("message", message)] in
  snapshot <- gets (fun w => active_connections (manager w)) ;;
  for_each snapshot (fun conn =>
    let connection := fst conn in
    try_except
      (if client_state_is_OPEN tr connection
       then send_message tr message_dict connection
       else disconnect connection)
      (fun e => match e with
                | WebSocketDisconnect => Some (disconnect connection)
                | ConnectionClosedOK => Some (disconnect connection)
                | _ => None
                end)).

(** ** AutoGenChatManager *)

(** [queue.Queue]: its bound ([maxsize <= 0] means unbounded) and its
    items, oldest first. *)
Record Queue : Type := {
  maxsize : Z;
  queue : list value
}.

(** [Queue.put_nowait(item)], that is [put(item, block=False)]: a bounded
    queue with no free slot raises [queue.Full] at once. *)
Definition put_nowait (item : value) (q : Queue) : exn + Queue :=
  if (0 <? maxsize q)%Z && (maxsize q <=? Z.of_nat (List.length (queue q)))%Z
  then inl Full
  else inr {| maxsize := maxsize q; queue := queue q ++ [item] |}.

Record AutoGenChatManager : Type := {
  message_queue : option Queue
}.

(** [datamodel.Message], with the fields [chat] reads and writes. *)
Record Message : Type := {
  user_id : value;
  role : string;
  content : value;
  meta : value;
  session_id : value
}.

(** [datamodel.Workflow], with the one field [chat] reads. *)
Record Workflow : Type := {
  summary_method : value
}.

(** [workflowmanager.WorkflowManager], with the attributes [chat] reads. *)
Record WorkflowManager : Type := {
  agent_history : list value;
  receiver_client : value;
  connection_id : value
}.

(** Calls that leave the dispatcher for its collaborators. *)
Inductive call : Type :=
| CallWorkflowManager (workflow : value) (history : list value) (work_dir : string)
    (connection_id : value)
| CallRun (message : string)
| CallSummarize (task : string) (messages : list value) (client : value).

Record dworld : Type := {
  self : AutoGenChatManager;
  directories : list string;
  calls : list call
}.

(** What the dispatcher imports.  The executor is given the send callback
    and may use it, and the file system, as it likes.  [SocketMessage type
    data connection_id] is the constructor of [datamodel.SocketMessage],
    which validates its fields and may raise, and [SocketMessage_dict] is
    the [dict()] of the object it built. *)
Record Externals : Type := {
  os_path_join : string -> string -> string -> string;
  str : value -> string;
  now_strftime : string;
  makedirs_error : string -> option exn;
  strip : string -> string;
  start_time : float;
  end_time : float;
  workflow_manager_init :
    (value -> M dworld unit) -> value -> list value -> string -> value ->
    M dworld WorkflowManager;
  workflow_manager_run :
    (value -> M dworld unit) -> WorkflowManager -> string -> M dworld WorkflowManager;
  model_validate : value -> exn + Workflow;
  get_modified_files : float -> float -> string -> value;
  extract_successful_code_blocks : list value -> list string;
  summarize_chat_history : string -> list value -> value -> exn + string;
  json_dumps : value -> exn + string;
  SocketMessage : value -> value -> value -> exn + value;
  SocketMessage_dict : value -> value
}.

Definition newline : string := String (ascii_of_nat 10) EmptyString.

(** [v == s] for a string literal [s] *)
Definition eq_str (v : value) (s : string) : bool :=
  match v with
  | VStr s' => String.eqb s' s
  | _ => false
  end.

(** [d[key]] on a dictionary *)
Fixpoint lookup (key : string) (d : list (string * value)) : option value :=
  match d with
  | [] => None
  | (k, v) :: rest => if String.eqb k key then Some v else lookup key rest
  end.

(** [v[key]] for a string key *)
Definition getitem (v : value) (key : string) : exn + value :=
  match v with
  | VDict d =>
      match lookup key d with
      | Some x => inr x
      | None => inl (KeyError key)
      end
  | _ => inl (TypeError "indices must be integers or the object is not subscriptable")
  end.

(** [a + b] where [b] is a string *)
Definition add_str (a : value) (b : string) : exn + value :=
  match a with
  | VStr s => inr (VStr (s ++ b)%string)
  | _ => inl (TypeError "unsupported operand type(s) for +")
  end.

(** [AutoGenChatManager.send] *)
Definition send (message : value) : M dworld unit :=
  fun w =>
    match message_queue (self w) with
    | Some q =>
        match put_nowait message q with
        | inl e => (Raised e, w)
        | inr q' =>
            (Returned tt,
             {| self := {| message_queue := Some q' |};
                directories := directories w;
                calls := calls w |})
        end
    | None => (Returned tt, w)
    end.

Definition log_call (c : call) : M dworld unit :=
  modify (fun w =>
    {| self := self w; directories := directories w; calls := calls w ++ [c] |}).

(** [os.makedirs(path, exist_ok=True)] *)
Definition os_makedirs (ext : Externals) (path : string) : M dworld unit :=
  match makedirs_error ext path with
  | Some e => raise e
  | None =>
      modify (fun w =>
        {| self := self w;
           directories :=
             if existsb (String.eqb path) (directories w)
             then directories w
             else directories w ++ [path];
           calls := calls w |})
  end.

(** [AutoGenChatManager._generate_output] *)
Definition _generate_output (ext : Externals) (message_text : string)
    (workflow_manager : WorkflowManager) (workflow : Workflow) : M dworld value :=
  let output := VStr "" in
  if eq_str (summary_method workflow) "last" then
    let successful_code_blocks :=
      extract_successful_code_blocks ext (agent_history workflow_manager) in
    last_message <-
      match agent_history workflow_manager with
      | [] => ret (VStr "")
      | entry :: rest =>
          message <- lift_sum (getitem (last rest entry) "message") ;;
          lift_sum (getitem message "content")
      end ;;
    let successful_code_blocks :=
      String.concat (newline ++ newline)%string successful_code_blocks in
    if negb (String.eqb successful_code_blocks "") then
      with_newline <- lift_sum (add_str last_message newline) ;;
      lift_sum (add_str with_newline successful_code_blocks)
    else ret last_message
  else if eq_str (summary_method workflow) "llm" then
    let client := receiver_client workflow_manager in
    status_message <-
      lift_sum (SocketMessage ext
                  (VStr "agent_status")
                  (VDict [("status", VStr "summarizing");
                          ("message", VStr "Summarizing agent dialogue")])
                  (connection_id workflow_manager)) ;;
    send (SocketMessage_dict ext status_message) ;;
    log_call (CallSummarize message_text (agent_history workflow_manager) client) ;;
    summary <- lift_sum (summarize_chat_history ext message_text
                           (agent_history workflow_manager) client) ;;
    ret (VStr summary)
  else if eq_str (summary_method workflow) "none" then ret (VStr "")
  else ret output.

(** [AutoGenChatManager.chat].  [workflow] is [VNone] when the caller gives
    none, [user_dir] is [None] likewise. *)
Definition chat (ext : Externals) (message : Message) (history : list value)
    (workflow : value) (connection_id : value) (user_dir : option string)
  : M dworld Message :=
  work_dir <-
    match user_dir with
    | Some d => ret (os_path_join ext d (str ext (session_id message)) (now_strftime ext))
    | None => raise (TypeError "expected str, bytes or os.PathLike object, not NoneType")
    end ;;
  os_makedirs ext work_dir ;;
  match workflow with
  | VNone => raise (ValueError "Workflow must be specified")
  | _ =>
      log_call (CallWorkflowManager workflow history work_dir connection_id) ;;
      workflow_manager <-
        workflow_manager_init ext send workflow history work_dir connection_id ;;
      workflow <- lift_sum (model_validate ext workflow) ;;
      message_text <-
        match content message with
        | VStr s => ret (strip ext s)
        | _ => raise (OtherException "AttributeError")
        end ;;
      let start_time := start_time ext in
      log_call (CallRun message_text) ;;
      workflow_manager <- workflow_manager_run ext send workflow_manager message_text ;;
      let end_time := end_time ext in
      let metadata :=
        VDict [("messages", VList (agent_history workflow_manager));
               ("summary_method", summary_method workflow);
               ("time", VFloat (PrimFloat.sub end_time start_time));
               ("files", get_modified_files ext start_time end_time work_dir)] in
      output <- _generate_output ext message_text workflow_manager workflow ;;
      meta <- lift_sum (json_dumps ext metadata) ;;
      ret {| user_id := user_id message;
             role := "assistant";
             content := output;
             meta := VStr meta;
             session_id := session_id message |}
  end.

(** ** Sequences of registry operations *)

Inductive op : Type :=
| Connect (websocket : WebSocket) (client_id : string)
| Disconnect (websocket : WebSocket).

Definition run_op (tr : Transport) (o : op) : M world unit :=
  match o with
  | Connect websocket client_id => connect tr websocket client_id
  | Disconnect websocket => disconnect websocket
  end.

Definition run_ops (tr : Transport) (ops : list op) : M world unit :=
  for_each ops (run_op tr).

(** The loop of [disconnect_all] with the other tasks made explicit.  The
    sweep can only be suspended where it awaits [disconnect]; [others]
    lists, for each such point in turn, the handles that concurrent callers
    disconnect there before the sweep's own call goes through. *)
Fixpoint sweep (snapshot : list (WebSocket * string)) (others : list (list WebSocket))
  : M world unit :=
  match snapshot with
  | [] => ret tt
  | conn :: rest =>
      for_each (hd [] others) disconnect ;;
      disconnect (fst conn) ;;
      sweep rest (tl others)
  end.

Definition disconnect_all_interleaved (others : list (list WebSocket)) : M world unit :=
  snapshot <- gets (fun w => active_connections (manager w)) ;;
  sweep snapshot others.

(** ** Vocabulary of the statements *)

(** The registry's list, and the state in which a call may enter the lock:
    there is a lock and nobody holds it. *)
Definition registry (w : world) : list (WebSocket * string) :=
  active_connections (manager w).

Definition lock_free (w : world) : Prop :=
  active_connections_lock (manager w) = Some {| locked := false |}.

Definition handles (l : list (WebSocket * string)) : list WebSocket := map fst l.

(** The registry without the entries of one handle. *)
Definition without (websocket : WebSocket) (l : list (WebSocket * string))
  : list (WebSocket * string) :=
  filter (fun conn => negb (Nat.eqb (fst conn) websocket)) l.

Definition mk_world (l : list (WebSocket * string)) (t : list event) : world :=
  {| manager := {| active_connections := l;
                   active_connections_lock := Some {| locked := false |} |};
     trace := t |}.

(** [fresh_connects registered ops]: no [Connect] of [ops] names a handle
    that is registered when its turn comes, [registered] being the handles
    in the registry before [ops]. *)
Fixpoint fresh_connects (registered : list WebSocket) (ops : list op) : bool :=
  match ops with
  | [] => true
  | Connect websocket _ :: rest =>
      negb (existsb (Nat.eqb websocket) registered)
      && fresh_connects (registered ++ [websocket]) rest
  | Disconnect websocket :: rest =>
      fresh_connects (filter (fun h => negb (Nat.eqb h websocket)) registered) rest
  end.

(** A transport whose peers are all well: every handshake and every write
    succeeds, every connection is open. *)
Definition healthy : Transport :=
  {| accept := fun _ => None;
     send_json := fun _ _ => None;
     client_state_is_OPEN := fun _ => true |}.

(** The envelope [broadcast] puts around a payload. *)
Definition envelope (message : value) : value := VDict [("message", message)].

(** The peers a broadcast of [message] cannot deliver to: the transport
    reports them closed, or the write of the envelope to them raises. *)
Definition fails (tr : Transport) (message : value) (websocket : WebSocket) : bool :=
  negb (client_state_is_OPEN tr websocket)
  || match send_json tr (envelope message) websocket with
     | Some _ => true
     | None => false
     end.

(** The handles a trace attempted a write to, in order. *)
Fixpoint send_attempts (t : list event) : list WebSocket :=
  match t with
  | [] => []
  | EvSendJson _ websocket _ :: rest => websocket :: send_attempts rest
  | _ :: rest => send_attempts rest
  end.

(** The events one round of the loop of [broadcast] produces for a
    connection. *)
Definition delivery_trace (tr : Transport) (message : value) (websocket : WebSocket)
  : list event :=
  if client_state_is_OPEN tr websocket then
    match send_json tr (envelope message) websocket with
    | None => [EvAcquire; EvSendJson (envelope message) websocket None; EvRelease]
    | Some e => [EvAcquire; EvSendJson (envelope message) websocket (Some e); EvRelease;
                 EvAcquire; EvRemove websocket; EvRelease]
    end
  else [EvAcquire; EvRemove websocket; EvRelease].

(** The state a manager built with a lock and no list starts in. *)
Definition initial_world : world :=
  {| manager := init None (Some {| locked := false |}); trace := [] |}.

(** The working directory [chat] derives for a request. *)
Definition work_dir_of (ext : Externals) (message : Message) (user_dir : string) : string :=
  os_path_join ext user_dir (str ext (session_id message)) (now_strftime ext).

(** [os.makedirs(path, exist_ok=True)] on a list of directories. *)
Definition with_directory (path : string) (dirs : list string) : list string :=
  if existsb (String.eqb path) dirs then dirs else dirs ++ [path].

(** A trace entry whose message has the given content and nothing else. *)
Definition entry_with_content (c : string) : value :=
  VDict [("message", VDict [("content", VStr c)])].

(** Collaborators for the examples: paths are joined with a slash, the file
    system permits everything, the executor returns a one-entry trace, the
    extractor finds the given code blocks, and a socket message wants a
    string for its connection id. *)
Definition example_externals_finding (blocks : list string) : Externals :=
  {| os_path_join := fun a b c => (a ++ "/" ++ b ++ "/" ++ c)%string;
     str := fun v => match v with VStr s => s | _ => "1" end;
     now_strftime := "20240101_00-00-00";
     makedirs_error := fun _ => None;
     strip := fun s => s;
     start_time := 0%float;
     end_time := 1%float;
     workflow_manager_init := fun _ _ _ _ connection_id =>
       ret {| agent_history := [];
              receiver_client := VNone;
              connection_id := connection_id |};
     workflow_manager_run := fun _ workflow_manager _ =>
       ret {| agent_history := [entry_with_content "hi"];
              receiver_client := receiver_client workflow_manager;
              connection_id := connection_id workflow_manager |};
     model_validate := fun _ => inr {| summary_method := VStr "last" |};
     get_modified_files := fun _ _ _ => VList [];
     extract_successful_code_blocks := fun _ => blocks;
     summarize_chat_history := fun _ _ _ => inr "summary";
     json_dumps := fun _ => inr "{}";
     SocketMessage := fun type data connection_id =>
       match connection_id with
       | VStr _ => inr (VDict [("connection_id", connection_id);
                               ("data", data);
                               ("type", type)])
       | _ => inl (OtherException "ValidationError")
       end;
     SocketMessage_dict := fun status_message => status_message |}.

Definition example_externals : Externals := example_externals_finding [].

(** An executor that has run and left the trace with contents "A", "B". *)
Definition example_workflow_manager : WorkflowManager :=
  {| agent_history := [entry_with_content "A"; entry_with_content "B"];
     receiver_client := VNone;
     connection_id := VNone |}.

Definition example_message : Message :=
  {| user_id := VStr "u1";
     role := "user";
     content := VStr " hello ";
     meta := VNone;
     session_id := VStr "s1" |}.

Definition empty_dworld (q : option Queue) : dworld :=
  {| self := {| message_queue := q |}; directories := []; calls := [] |}.

(** ** Whole runs of the registry *)

(** A call of any of the five methods. *)
Inductive request : Type :=
| ReqConnect (websocket : WebSocket) (client_id : string)
| ReqDisconnect (websocket : WebSocket)
| ReqDisconnectAll
| ReqSendMessage (message : value) (websocket : WebSocket)
| ReqBroadcast (message : value).

Definition run_request (tr : Transport) (r : request) : M world unit :=
  match r with
  | ReqConnect websocket client_id => connect tr websocket client_id
  | ReqDisconnect websocket => disconnect websocket
  | ReqDisconnectAll => disconnect_all
  | ReqSendMessage message websocket => send_message tr message websocket
  | ReqBroadcast message => broadcast tr message
  end.

(** The lock discipline of a trace, read from left to right with [held]
    telling whether the lock is held: it is acquired only when free and
    released only when held, the list is changed and sockets are written to
    only while it is held, a handshake is awaited only while it is free, and
    at the end it is free. *)
Fixpoint guarded (held : bool) (t : list event) : bool :=
  match t with
  | [] => negb held
  | EvAcquire :: rest => negb held && guarded true rest
  | EvRelease :: rest => held && guarded false rest
  | EvAccept _ :: rest => negb held && guarded held rest
  | EvAppend _ _ :: rest => held && guarded held rest
  | EvRemove _ :: rest => held && guarded held rest
  | EvSendJson _ _ _ :: rest => held && guarded held rest
  end.

(** A manager that was built without a lock. *)
Definition no_lock (w : world) : Prop :=
  active_connections_lock (manager w) = None.

(** The data of the status notice [_generate_output] sends before it
    summarizes. *)
Definition summarizing_data : value :=
  VDict [("status", VStr "summarizing");
         ("message", VStr "Summarizing agent dialogue")].

(** The same collaborators with another summarizer. *)
Definition with_summarizer (ext : Externals)
    (summarizer : string -> list value -> value -> exn + string) : Externals :=
  {| os_path_join := os_path_join ext;
     str := str ext;
     now_strftime := now_strftime ext;
     makedirs_error := makedirs_error ext;
     strip := strip ext;
     start_time := start_time ext;
     end_time := end_time ext;
     workflow_manager_init := workflow_manager_init ext;
     workflow_manager_run := workflow_manager_run ext;
     model_validate := model_validate ext;
     get_modified_files := get_modified_files ext;
     extract_successful_code_blocks := extract_successful_code_blocks ext;
     summarize_chat_history := summarizer;
     json_dumps := json_dumps ext;
     SocketMessage := SocketMessage ext;
     SocketMessage_dict := SocketMessage_dict ext |}.

(** An executor whose connection id is a string. *)
Definition example_connected_workflow_manager : WorkflowManager :=
  {| agent_history := [entry_with_content "A"; entry_with_content "B"];
     receiver_client := VNone;
     connection_id := VStr "c1" |}.

(** The code blocks of a trace as [_generate_output] joins them. *)
Definition joined_code_blocks (ext : Externals) (history : list value) : string :=
  String.concat (newline ++ newline)%string (extract_successful_code_blocks ext history).

(** A queue that takes one more item. *)
Definition has_room (q : Queue) : Prop :=
  (maxsize q <= 0 \/ Z.of_nat (List.length (queue q)) < maxsize q)%Z.

Definition enqueue (item : value) (q : Queue) : Queue :=
  {| maxsize := maxsize q; queue := queue q ++ [item] |}.

Definition with_queue (q : option Queue) (w : dworld) : dworld :=
  {| self := {| message_queue := q |}; directories := directories w; calls := calls w |}.

(** A computation that, entered with the lock free, ends with the lock
    free, does not wait for ever, and adds a trace that keeps the lock
    discipline. *)
Definition disciplined (m : M world unit) : Prop :=
  forall l t, exists r l' t',
    m (mk_world l t) = (r, mk_world l' (t ++ t')) /\
    r <> Blocked /\
    guarded false t' = true.

(** The state in which [chat] constructs the executor: the working
    directory made and the call noted. *)
Definition ready_to_construct (ext : Externals) (message : Message) (history : list value)
    (workflow connection_id : value) (user_dir : string) (w : dworld) : dworld :=
  {| self := self w;
     directories := with_directory (work_dir_of ext message user_dir) (directories w);
     calls := calls w ++ [CallWorkflowManager workflow history
                            (work_dir_of ext message user_dir) connection_id] |}.

(** The state in which [chat] runs the executor. *)
Definition ready_to_run (message_text : string) (w : dworld) : dworld :=
  {| self := self w; directories := directories w;
     calls := calls w ++ [CallRun message_text] |}.

(** The metadata [chat] serializes into the response. *)
Definition metadata_of (ext : Externals) (workflow_manager : WorkflowManager)
    (workflow : Workflow) (work_dir : string) : value :=
  VDict [("messages", VList (agent_history workflow_manager));
         ("summary_method", summary_method workflow);
         ("time", VFloat (PrimFloat.sub (end_time ext) (start_time ext)));
         ("files", get_modified_files ext (start_time ext) (end_time ext) work_dir)].

(** The collaborators of the examples, with an executor whose run fails. *)
Definition example_externals_failing_run : Externals :=
  {| os_path_join := os_path_join example_externals;
     str := str example_externals;
     now_strftime := now_strftime example_externals;
     makedirs_error := makedirs_error example_externals;
     strip := strip example_externals;
     start_time := start_time example_externals;
     end_time := end_time example_externals;
     workflow_manager_init := workflow_manager_init example_externals;
     workflow_manager_run := fun _ _ _ => raise (OtherException "RuntimeError");
     model_validate := model_validate example_externals;
     get_modified_files := get_modified_files example_externals;
     extract_successful_code_blocks := extract_successful_code_blocks example_externals;
     summarize_chat_history := summarize_chat_history example_externals;
     json_dumps := json_dumps example_externals;
     SocketMessage := SocketMessage example_externals;
     SocketMessage_dict := SocketMessage_dict example_externals |}.

Definition example_workflow : value := VDict [("name", VStr "default")].

(** ** The states of a socket *)

(** [starlette.websockets.WebSocketState], the type of [client_state] on
    the FastAPI [WebSocket] the module declares for its connections: a
    plain [enum.Enum]. *)
Inductive WebSocketState : Type :=
| WebSocketState_CONNECTING
| WebSocketState_CONNECTED
| WebSocketState_DISCONNECTED
| WebSocketState_RESPONSE.

(** [websockets.protocol.State], an [enum.IntEnum] whose members are 0 to 3. *)
Inductive State : Type :=
| State_CONNECTING
| State_OPEN
| State_CLOSING
| State_CLOSED.

Definition State_value (s : State) : Z :=
  match s with
  | State_CONNECTING => 0
  | State_OPEN => 1
  | State_CLOSING => 2
  | State_CLOSED => 3
  end.

Definition WebSocketState_eqb (a b : WebSocketState) : bool :=
  match a, b with
  | WebSocketState_CONNECTING, WebSocketState_CONNECTING => true
  | WebSocketState_CONNECTED, WebSocketState_CONNECTED => true
  | WebSocketState_DISCONNECTED, WebSocketState_DISCONNECTED => true
  | WebSocketState_RESPONSE, WebSocketState_RESPONSE => true
  | _, _ => false
  end.

(** The objects the test of [broadcast] can compare. *)
Inductive enum_object : Type :=
| OfWebSocketState (s : WebSocketState)
| OfState (s : State)
| OfInt (z : Z).

(** Python's [a == b] on them: a member of a plain [Enum] is equal to
    itself only; a member of an [IntEnum] is an [int] and compares as one
    with members of its class and with integers. *)
Definition py_eq (a b : enum_object) : bool :=
  match a, b with
  | OfWebSocketState s, OfWebSocketState s' => WebSocketState_eqb s s'
  | OfState s, OfState s' => Z.eqb (State_value s) (State_value s')
  | OfState s, OfInt z => Z.eqb (State_value s) z
  | OfInt z, OfState s => Z.eqb z (State_value s)
  | OfInt z, OfInt z' => Z.eqb z z'
  | _, _ => false
  end.

(** The transport of FastAPI sockets: [client_state] is a
    [WebSocketState], and the test of [broadcast] compares it with
    [websockets.protocol.State.OPEN]. *)
Definition fastapi_transport (accept : WebSocket -> option exn)
    (send_json : value -> WebSocket -> option exn)
    (client_state : WebSocket -> WebSocketState) : Transport :=
  {| accept := accept;
     send_json := send_json;
     client_state_is_OPEN := fun websocket =>
       py_eq (OfWebSocketState (client_state websocket)) (OfState State_OPEN) |}.
(** * Properties *)

(** ** The registry *)

Lemma lock_free_mk_world (w : world) :
  lock_free w -> w = mk_world (registry w) (trace w).
Proof.
  destruct w as [[l k] t]. unfold lock_free, mk_world, registry. simpl.
  intros ->. reflexivity.
Qed.

Lemma lock_free_inv (w : world) :
  lock_free w -> exists l t, w = mk_world l t.
Proof. intros H. exists (registry w), (trace w). apply lock_free_mk_world, H. Qed.

Ltac free_world H :=
  let l := fresh "l" in
  let t := fresh "t" in
  apply lock_free_inv in H; destruct H as [l [t ->]].

Lemma mk_world_lock_free l t : lock_free (mk_world l t).
Proof. reflexivity. Qed.

Lemma disconnect_mk_world websocket l t :
  disconnect websocket (mk_world l t)
  = (Returned tt, mk_world (without websocket l) (t ++ [EvAcquire; EvRemove websocket; EvRelease])).
Proof.
  unfold disconnect, with_lock, mk_world, without. cbn.
  rewrite <- !app_assoc. reflexivity.
Qed.

Lemma connect_mk_world tr websocket client_id l t :
  accept tr websocket = None ->
  connect tr websocket client_id (mk_world l t)
  = (Returned tt,
     mk_world (l ++ [(websocket, client_id)])
       (t ++ [EvAccept websocket; EvAcquire; EvAppend websocket client_id; EvRelease])).
Proof.
  intros Hacc. unfold connect, websocket_accept, with_lock, mk_world.
  rewrite Hacc. cbn. rewrite <- !app_assoc. reflexivity.
Qed.

Lemma send_message_mk_world tr message websocket l t :
  send_message tr message websocket (mk_world l t)
  = match send_json tr message websocket with
    | None =>
        (Returned tt,
         mk_world l (t ++ [EvAcquire; EvSendJson message websocket None; EvRelease]))
    | Some e =>
        (Returned tt,
         mk_world (without websocket l)
           (t ++ [EvAcquire; EvSendJson message websocket (Some e); EvRelease;
                  EvAcquire; EvRemove websocket; EvRelease]))
    end.
Proof.
  unfold send_message, try_except, with_lock, websocket_send_json, mk_world.
  cbn. destruct (send_json tr message websocket) as [e|] eqn:Hs; cbn.
  - rewrite <- !app_assoc. cbn.
    assert (Hd := disconnect_mk_world websocket l
      (t ++ [EvAcquire; EvSendJson message websocket (Some e); EvRelease])).
    unfold mk_world in Hd. rewrite <- !app_assoc in Hd. cbn in Hd.
    destruct e; exact Hd.
  - rewrite <- !app_assoc. reflexivity.
Qed.

Lemma without_cons websocket h c l :
  without websocket ((h, c) :: l)
  = if Nat.eqb h websocket then without websocket l else (h, c) :: without websocket l.
Proof. unfold without. cbn. destruct (Nat.eqb h websocket); reflexivity. Qed.

Lemma without_absent websocket l :
  ~ In websocket (handles l) -> without websocket l = l.
Proof.
  induction l as [|[h c] l IH]; intros Hnot; [reflexivity|].
  rewrite without_cons. cbn in Hnot.
  destruct (Nat.eqb_spec h websocket) as [->|Hne].
  - exfalso. apply Hnot. left. reflexivity.
  - rewrite IH; [reflexivity|]. intros Hin. apply Hnot. right. exact Hin.
Qed.

Lemma without_idem websocket l :
  without websocket (without websocket l) = without websocket l.
Proof.
  induction l as [|[h c] l IH]; [reflexivity|].
  rewrite without_cons. destruct (Nat.eqb_spec h websocket) as [->|Hne].
  - exact IH.
  - rewrite without_cons. destruct (Nat.eqb_spec h websocket); [contradiction|].
    rewrite IH. reflexivity.
Qed.

(** C4: on a registry whose lock is free, [disconnect websocket] returns
    and leaves exactly the entries of the other handles, unchanged and in
    order; when no entry has that handle the registry is as it was; and
    disconnecting once more changes nothing. *)
Theorem disconnect_removes_every_entry (websocket : WebSocket) (w : world) :
  lock_free w ->
  exists w',
    disconnect websocket w = (Returned tt, w') /\
    registry w' = without websocket (registry w) /\
    (forall conn, In conn (registry w') <->
                  In conn (registry w) /\ fst conn <> websocket) /\
    (~ In websocket (handles (registry w)) -> registry w' = registry w) /\
    lock_free w' /\
    exists w'', disconnect websocket w' = (Returned tt, w'') /\
                registry w'' = registry w'.
Proof.
  intros Hfree. free_world Hfree. rewrite disconnect_mk_world.
  eexists. split; [reflexivity|]. cbn [registry mk_world manager active_connections].
  split; [reflexivity|]. split; [|split; [|split]].
  - intros conn. unfold without. rewrite filter_In, negb_true_iff, Nat.eqb_neq. tauto.
  - intros Hnot. apply without_absent. exact Hnot.
  - apply mk_world_lock_free.
  - rewrite disconnect_mk_world. eexists. split; [reflexivity|].
    cbn [registry mk_world manager active_connections]. apply without_idem.
Qed.

Lemma disconnect_removes_every_entry_witness :
  lock_free (mk_world [(1, "a"); (2, "b"); (1, "c")] []) /\
  exists w',
    disconnect 1 (mk_world [(1, "a"); (2, "b"); (1, "c")] []) = (Returned tt, w') /\
    registry w' = [(2, "b")].
Proof.
  split; [reflexivity|].
  destruct (disconnect_removes_every_entry 1 (mk_world [(1, "a"); (2, "b"); (1, "c")] [])
              eq_refl) as [w' [H1 [H2 _]]].
  exists w'. split; [exact H1 | exact H2].
Defined.

(** C2: when the write in [send_message] raises, whatever the exception,
    [send_message] runs [disconnect] on that handle, from the state the
    failed write left, and returns normally: the handle's entries are gone
    and nothing is raised to the caller. *)
Theorem send_message_failure_disconnects (tr : Transport) (message : value)
    (websocket : WebSocket) (w : world) (e : exn) :
  lock_free w ->
  send_json tr message websocket = Some e ->
  exists w1 w',
    with_lock (websocket_send_json tr message websocket) w = (Raised e, w1) /\
    send_message tr message websocket w = disconnect websocket w1 /\
    disconnect websocket w1 = (Returned tt, w') /\
    registry w' = without websocket (registry w) /\
    trace w' = trace w ++ [EvAcquire; EvSendJson message websocket (Some e); EvRelease;
                           EvAcquire; EvRemove websocket; EvRelease] /\
    lock_free w'.
Proof.
  intros Hfree Hsend. free_world Hfree.
  exists (mk_world l (t ++ [EvAcquire; EvSendJson message websocket (Some e); EvRelease])).
  eexists.
  assert (Hwith : with_lock (websocket_send_json tr message websocket) (mk_world l t)
                  = (Raised e,
                     mk_world l (t ++ [EvAcquire; EvSendJson message websocket (Some e);
                                       EvRelease]))).
  { unfold with_lock, websocket_send_json, mk_world. cbn. rewrite Hsend. cbn.
    rewrite <- !app_assoc. reflexivity. }
  split; [exact Hwith|]. split.
  - unfold send_message, try_except. rewrite Hwith. destruct e; reflexivity.
  - rewrite disconnect_mk_world. split; [reflexivity|].
    cbn [registry trace mk_world manager active_connections].
    split; [reflexivity|]. split; [|apply mk_world_lock_free].
    rewrite <- app_assoc. reflexivity.
Qed.

(** A peer that closes abnormally on every write, and answers nothing else. *)
Lemma send_message_failure_disconnects_witness :
  exists w',
    send_message
      {| accept := fun _ => None;
         send_json := fun _ _ => Some ConnectionClosedError;
         client_state_is_OPEN := fun _ => true |}
      (VStr "hi") 1 (mk_world [(1, "a"); (2, "b")] []) = (Returned tt, w') /\
    registry w' = [(2, "b")].
Proof.
  destruct (send_message_failure_disconnects
              {| accept := fun _ => None;
                 send_json := fun _ _ => Some ConnectionClosedError;
                 client_state_is_OPEN := fun _ => true |}
              (VStr "hi") 1 (mk_world [(1, "a"); (2, "b")] []) ConnectionClosedError
              eq_refl eq_refl) as [w1 [w' [_ [H2 [H3 [H4 _]]]]]].
  exists w'. split; [rewrite H2; exact H3 | exact H4].
Defined.

(** Several disconnects in a row only take entries away. *)
Lemma for_each_disconnect_mk_world hs l t :
  exists l' t',
    for_each hs disconnect (mk_world l t) = (Returned tt, mk_world l' t') /\
    incl l' l.
Proof.
  revert l t. induction hs as [|h hs IH]; intros l t.
  - exists l, t. split; [reflexivity | apply incl_refl].
  - cbn [for_each]. unfold bind. rewrite disconnect_mk_world.
    destruct (IH (without h l) (t ++ [EvAcquire; EvRemove h; EvRelease]))
      as [l' [t' [Hrun Hincl]]].
    exists l', t'. split; [exact Hrun|].
    intros conn Hin. apply Hincl in Hin. unfold without in Hin.
    apply filter_In in Hin. tauto.
Qed.

Lemma sweep_mk_world snapshot others l t :
  exists l' t',
    sweep snapshot others (mk_world l t) = (Returned tt, mk_world l' t') /\
    forall conn, In conn l' -> In conn l /\ ~ In (fst conn) (handles snapshot).
Proof.
  revert others l t. induction snapshot as [|[h c] snapshot IH]; intros others l t.
  - exists l, t. split; [reflexivity|]. intros conn Hin. split; [exact Hin | intros []].
  - cbn [sweep]. unfold bind.
    destruct (for_each_disconnect_mk_world (hd [] others) l t) as [l1 [t1 [Hrun1 Hincl1]]].
    rewrite Hrun1. cbn [fst]. rewrite disconnect_mk_world.
    destruct (IH (tl others) (without h l1) (t1 ++ [EvAcquire; EvRemove h; EvRelease]))
      as [l' [t' [Hrun Hspec]]].
    exists l', t'. split; [exact Hrun|].
    intros conn Hin. destruct (Hspec conn Hin) as [Hin1 Hnot].
    unfold without in Hin1. apply filter_In in Hin1. destruct Hin1 as [Hin1 Hne].
    apply negb_true_iff, Nat.eqb_neq in Hne.
    split; [apply Hincl1, Hin1|].
    cbn. intros [Heq | Hin']; [apply Hne; symmetry; exact Heq | exact (Hnot Hin')].
Qed.

(** C5: [disconnect_all] on a registry whose lock is free returns and
    leaves the registry empty, whatever handles other callers disconnect
    while the sweep waits at its own [disconnect] calls, those of the sweep's
    snapshot included; with no other caller the interleaved sweep is
    [disconnect_all] itself. *)
Theorem disconnect_all_empties_registry (others : list (list WebSocket)) (w : world) :
  lock_free w ->
  disconnect_all_interleaved [] w = disconnect_all w /\
  exists w',
    disconnect_all_interleaved others w = (Returned tt, w') /\
    registry w' = [] /\
    lock_free w'.
Proof.
  intros Hfree. split.
  - unfold disconnect_all_interleaved, disconnect_all, bind, gets.
    generalize (active_connections (manager w)) as snapshot. intros snapshot. revert w Hfree.
    induction snapshot as [|conn snapshot IH]; intros w Hfree; [reflexivity|].
    cbn [sweep for_each hd tl]. unfold bind. cbn [ret].
    free_world Hfree. rewrite disconnect_mk_world.
    apply IH. apply mk_world_lock_free.
  - free_world Hfree. unfold disconnect_all_interleaved, bind, gets.
    cbn [mk_world manager active_connections].
    destruct (sweep_mk_world l others l t) as [l' [t' [Hrun Hspec]]].
    fold (mk_world l t). rewrite Hrun. eexists. split; [reflexivity|].
    split; [|apply mk_world_lock_free].
    cbn [registry mk_world manager active_connections].
    destruct l' as [|conn l']; [reflexivity|].
    exfalso. destruct (Hspec conn (or_introl eq_refl)) as [Hin Hnot].
    apply Hnot. unfold handles. apply in_map. exact Hin.
Qed.

(** Three connections; while the sweep waits to remove the second, another
    caller removes it, and the third, first. *)
Lemma disconnect_all_empties_registry_witness :
  exists w',
    disconnect_all_interleaved [[]; [2; 3]]
      (mk_world [(1, "a"); (2, "b"); (3, "c")] []) = (Returned tt, w') /\
    registry w' = [].
Proof.
  destruct (disconnect_all_empties_registry [[]; [2; 3]]
              (mk_world [(1, "a"); (2, "b"); (3, "c")] []) eq_refl)
    as [_ [w' [H1 [H2 _]]]].
  exists w'. split; [exact H1 | exact H2].
Defined.

Lemma handles_without websocket l :
  handles (without websocket l) = filter (fun h => negb (Nat.eqb h websocket)) (handles l).
Proof.
  induction l as [|[h c] l IH]; [reflexivity|].
  rewrite without_cons. change (handles ((h, c) :: l)) with (h :: handles l).
  cbn [filter]. destruct (Nat.eqb h websocket); cbn [negb]; [exact IH|].
  change (handles ((h, c) :: without websocket l))
    with (h :: handles (without websocket l)).
  rewrite IH. reflexivity.
Qed.

Lemma fresh_connects_firstn n ops registered :
  fresh_connects registered ops = true ->
  fresh_connects registered (firstn n ops) = true.
Proof.
  revert n registered. induction ops as [|[websocket c|websocket] ops IH];
    intros [|n] registered Hfresh; try reflexivity; cbn in *.
  - apply andb_true_iff in Hfresh. destruct Hfresh as [H1 H2].
    rewrite H1. cbn. apply IH, H2.
  - apply IH, Hfresh.
Qed.

Lemma run_ops_fresh tr ops : forall l t,
  (forall websocket c, In (Connect websocket c) ops -> accept tr websocket = None) ->
  fresh_connects (handles l) ops = true ->
  NoDup (handles l) ->
  exists l' t',
    run_ops tr ops (mk_world l t) = (Returned tt, mk_world l' t') /\
    NoDup (handles l').
Proof.
  induction ops as [|[websocket c|websocket] ops IH]; intros l t Hacc Hfresh Hnd.
  - exists l, t. split; [reflexivity | exact Hnd].
  - cbn in Hfresh. apply andb_true_iff in Hfresh. destruct Hfresh as [Hnew Hfresh].
    unfold run_ops. cbn [for_each run_op]. unfold bind.
    rewrite connect_mk_world by (apply (Hacc websocket c); left; reflexivity).
    apply IH.
    + intros ws' c' Hin. apply (Hacc ws' c'). right. exact Hin.
    + unfold handles in *. rewrite map_app. exact Hfresh.
    + unfold handles in *. rewrite map_app. apply NoDup_app; [exact Hnd | |].
      * cbn. constructor; [intros [] | constructor].
      * intros a Hin [Heq | []]. cbn in Heq. subst a.
        apply negb_true_iff in Hnew.
        assert (Hex : existsb (Nat.eqb websocket) (map fst l) = true).
        { apply existsb_exists. exists websocket. split; [exact Hin | apply Nat.eqb_refl]. }
        rewrite Hex in Hnew. discriminate.
  - cbn in Hfresh. unfold run_ops. cbn [for_each run_op]. unfold bind.
    rewrite disconnect_mk_world. apply IH.
    + intros ws' c' Hin. apply (Hacc ws' c'). right. exact Hin.
    + rewrite handles_without. exact Hfresh.
    + rewrite handles_without. apply NoDup_filter. exact Hnd.
Qed.

(** C3, as the code has it: starting from the empty registry of a manager
    built with a lock, through a sequence of connects and disconnects in
    which no connect names a handle that is registered at that moment
    (disconnects may name any handle, unknown or already removed), with the
    accept handshakes succeeding, every operation returns and, after each
    of them, no two entries of the registry have the same handle. *)
Theorem fresh_connects_never_duplicate (tr : Transport) (ops : list op) (n : nat) :
  (forall websocket c, In (Connect websocket c) ops -> accept tr websocket = None) ->
  fresh_connects [] ops = true ->
  exists w',
    run_ops tr (firstn n ops) initial_world = (Returned tt, w') /\
    NoDup (handles (registry w')) /\
    lock_free w'.
Proof.
  intros Hacc Hfresh.
  destruct (run_ops_fresh tr (firstn n ops) [] []) as [l' [t' [Hrun Hnd]]].
  - intros websocket c Hin. apply (Hacc websocket c). rewrite <- (firstn_skipn n ops). apply in_or_app. left. exact Hin.
  - apply fresh_connects_firstn. exact Hfresh.
  - constructor.
  - exists (mk_world l' t'). split; [exact Hrun|]. split; [exact Hnd|].
    apply mk_world_lock_free.
Qed.

Lemma fresh_connects_never_duplicate_witness :
  exists w',
    run_ops healthy
      (firstn 4 [Connect 1 "a"; Disconnect 5; Disconnect 1; Connect 1 "b"; Disconnect 1])
      initial_world = (Returned tt, w') /\
    NoDup (handles (registry w')).
Proof.
  destruct (fresh_connects_never_duplicate healthy
              [Connect 1 "a"; Disconnect 5; Disconnect 1; Connect 1 "b"; Disconnect 1] 4
              (fun _ _ _ => eq_refl) eq_refl) as [w' [H1 [H2 _]]].
  exists w'. split; [exact H1 | exact H2].
Defined.

(** C3 as stated fails: connecting the same handle twice, with both
    handshakes succeeding, leaves two entries with that handle. *)
Lemma repeated_connect_duplicates_handle :
  run_ops healthy [Connect 7 "a"; Connect 7 "b"] initial_world
  = (Returned tt,
     mk_world [(7, "a"); (7, "b")]
       [EvAccept 7; EvAcquire; EvAppend 7 "a"; EvRelease;
        EvAccept 7; EvAcquire; EvAppend 7 "b"; EvRelease]) /\
  ~ NoDup (handles [(7, "a"); (7, "b")]).
Proof.
  split; [reflexivity|].
  intros Hnd. inversion Hnd as [|x l Hnot _]. apply Hnot. left. reflexivity.
Qed.

(** ** Broadcast *)

Section Broadcast.

Variable tr : Transport.
Variable message : value.

(** One round of the loop: the connection is written to, or removed, and
    the round returns either way. *)
Lemma broadcast_round_mk_world (connection : WebSocket) l t :
  try_except
    (if client_state_is_OPEN tr connection
     then send_message tr (envelope message) connection
     else disconnect connection)
    (fun e => match e with
              | WebSocketDisconnect => Some (disconnect connection)
              | ConnectionClosedOK => Some (disconnect connection)
              | _ => None
              end)
    (mk_world l t)
  = (Returned tt,
     mk_world (if fails tr message connection then without connection l else l)
       (t ++ delivery_trace tr message connection)).
Proof.
  unfold try_except, fails, delivery_trace.
  destruct (client_state_is_OPEN tr connection); cbn [negb orb].
  - rewrite send_message_mk_world.
    destruct (send_json tr (envelope message) connection); reflexivity.
  - rewrite disconnect_mk_world. reflexivity.
Qed.

Lemma filter_const_true (l : list (WebSocket * string)) :
  filter (fun _ => true) l = l.
Proof. induction l as [|c l IH]; [reflexivity|]. cbn. rewrite IH. reflexivity. Qed.

(** The entries that outlive the rounds for [snapshot]. *)
Lemma survivors_cons (s : WebSocket * string) (snapshot l : list (WebSocket * string)) :
  filter (fun conn =>
    negb (existsb (fun s => fails tr message (fst s) && Nat.eqb (fst conn) (fst s))
            snapshot))
    (if fails tr message (fst s) then without (fst s) l else l)
  = filter (fun conn =>
      negb (existsb (fun s => fails tr message (fst s) && Nat.eqb (fst conn) (fst s))
              (s :: snapshot))) l.
Proof.
  induction l as [|[h cid] l IHl]; [destruct (fails tr message (fst s)); reflexivity|].
  cbn [existsb filter fst] in *.
  destruct (fails tr message (fst s)) eqn:Hf; cbn [andb orb] in *.
  - rewrite without_cons. destruct (Nat.eqb h (fst s)); cbn [orb negb].
    + exact IHl.
    + cbn [filter fst]. rewrite IHl. reflexivity.
  - reflexivity.
Qed.

Lemma broadcast_loop_mk_world snapshot : forall l t,
  for_each snapshot (fun conn : WebSocket * string =>
    let connection := fst conn in
    try_except
      (if client_state_is_OPEN tr connection
       then send_message tr (envelope message) connection
       else disconnect connection)
      (fun e => match e with
                | WebSocketDisconnect => Some (disconnect connection)
                | ConnectionClosedOK => Some (disconnect connection)
                | _ => None
                end))
    (mk_world l t)
  = (Returned tt,
     mk_world
       (filter (fun conn =>
          negb (existsb (fun s => fails tr message (fst s) && Nat.eqb (fst conn) (fst s))
                  snapshot)) l)
       (t ++ flat_map (fun conn => delivery_trace tr message (fst conn)) snapshot)).
Proof.
  induction snapshot as [|s snapshot IH]; intros l t.
  - cbn [for_each existsb negb flat_map]. rewrite app_nil_r, filter_const_true.
    reflexivity.
  - cbn [for_each]. unfold bind. cbv zeta. rewrite broadcast_round_mk_world.
    cbv zeta in IH. rewrite IH. rewrite survivors_cons.
    cbn [flat_map]. rewrite app_assoc. reflexivity.
Qed.

Lemma survivors_of_snapshot (l : list (WebSocket * string)) :
  filter (fun conn =>
    negb (existsb (fun s => fails tr message (fst s) && Nat.eqb (fst conn) (fst s)) l)) l
  = filter (fun conn => negb (fails tr message (fst conn))) l.
Proof.
  apply filter_ext_in. intros conn Hin. f_equal.
  destruct (fails tr message (fst conn)) eqn:Hf.
  - apply existsb_exists. exists conn. split; [exact Hin|].
    rewrite Hf, Nat.eqb_refl. reflexivity.
  - destruct (existsb _ l) eqn:Hex; [|reflexivity].
    apply existsb_exists in Hex. destruct Hex as [s [_ Hs]].
    apply andb_true_iff in Hs. destruct Hs as [Hfs Heq].
    apply Nat.eqb_eq in Heq. unfold WebSocket in *. congruence.
Qed.

Lemma send_attempts_app t1 t2 :
  send_attempts (t1 ++ t2) = send_attempts t1 ++ send_attempts t2.
Proof.
  induction t1 as [|e t1 IH]; [reflexivity|].
  destruct e; cbn; rewrite ?IH; reflexivity.
Qed.

Lemma send_attempts_deliveries (l : list (WebSocket * string)) :
  send_attempts (flat_map (fun conn => delivery_trace tr message (fst conn)) l)
  = handles (filter (fun conn : WebSocket * string => client_state_is_OPEN tr (fst conn)) l).
Proof.
  induction l as [|[h c] l IH]; [reflexivity|].
  cbn [flat_map filter fst]. rewrite send_attempts_app, IH.
  unfold delivery_trace.
  destruct (client_state_is_OPEN tr h); [|reflexivity].
  destruct (send_json tr (envelope message) h); reflexivity.
Qed.

Lemma delivered_in_deliveries (conn : WebSocket * string) l :
  In conn l ->
  fails tr message (fst conn) = false ->
  In (EvSendJson (envelope message) (fst conn) None)
     (flat_map (fun conn => delivery_trace tr message (fst conn)) l).
Proof.
  intros Hin Hf. apply in_flat_map. exists conn. split; [exact Hin|].
  unfold fails in Hf. apply orb_false_iff in Hf. destruct Hf as [Ho Hs].
  apply negb_false_iff in Ho. unfold delivery_trace. rewrite Ho.
  destruct (send_json tr (envelope message) (fst conn)); [discriminate|].
  right. left. reflexivity.
Qed.

Lemma filter_complement_length (f : WebSocket * string -> bool) l :
  List.length (filter (fun conn => negb (f conn)) l)
  = List.length l - List.length (filter f l).
Proof.
  assert (H : List.length (filter (fun conn => negb (f conn)) l)
              + List.length (filter f l) = List.length l).
  { induction l as [|c l IH]; [reflexivity|].
    cbn. destruct (f c); cbn; lia. }
  lia.
Qed.

End Broadcast.

(** X23: a broadcast over a registry whose lock is free returns, and with
    S the entries for whose peer the test [client_state == State.OPEN] is
    false or whose write of the envelope raises: the entries left are those
    outside S, in order, so
    their number is N minus the size of S; every entry outside S was
    written the envelope [{"message": message}] and the write succeeded; no
    handle of S is in the registry afterwards; and a write was attempted to
    every open connection of the snapshot, in order, whatever happened to
    the ones before it. *)
Theorem broadcast_isolates_failures (tr : Transport) (message : value) (w : world) :
  lock_free w ->
  exists w' t',
    broadcast tr message w = (Returned tt, w') /\
    registry w' = filter (fun conn => negb (fails tr message (fst conn))) (registry w) /\
    List.length (registry w')
    = List.length (registry w)
      - List.length (filter (fun conn => fails tr message (fst conn)) (registry w)) /\
    trace w' = trace w ++ t' /\
    (forall conn, In conn (registry w) -> fails tr message (fst conn) = false ->
       In (EvSendJson (VDict [("message", message)]) (fst conn) None) t') /\
    (forall conn, In conn (registry w) -> fails tr message (fst conn) = true ->
       ~ In (fst conn) (handles (registry w'))) /\
    send_attempts t'
    = handles (filter (fun conn => client_state_is_OPEN tr (fst conn)) (registry w)) /\
    lock_free w'.
Proof.
  intros Hfree. free_world Hfree.
  exists (mk_world (filter (fun conn => negb (fails tr message (fst conn))) l)
            (t ++ flat_map (fun conn => delivery_trace tr message (fst conn)) l)).
  exists (flat_map (fun conn => delivery_trace tr message (fst conn)) l).
  cbn [registry trace mk_world manager active_connections].
  split.
  { unfold broadcast, bind, gets. cbn [mk_world manager active_connections].
    fold (mk_world l t). fold (envelope message).
    rewrite broadcast_loop_mk_world, survivors_of_snapshot. reflexivity. }
  split; [reflexivity|].
  split; [apply filter_complement_length|].
  split; [reflexivity|].
  split; [intros conn Hin Hf; apply delivered_in_deliveries; assumption|].
  split.
  { intros conn Hin Hf Hin'. unfold handles in Hin'. apply in_map_iff in Hin'.
    destruct Hin' as [conn' [Heq Hin']]. apply filter_In in Hin'.
    destruct Hin' as [_ Hnf]. rewrite Heq, Hf in Hnf. discriminate. }
  split; [apply send_attempts_deliveries | apply mk_world_lock_free].
Qed.

(** Four connections: the second fails its write, the third is reported
    closed, the first and the fourth are well. *)
Lemma broadcast_isolates_failures_witness :
  let tr := {| accept := fun _ => None;
               send_json := fun _ websocket =>
                 if Nat.eqb websocket 2 then Some WebSocketDisconnect else None;
               client_state_is_OPEN := fun websocket => negb (Nat.eqb websocket 3) |} in
  exists w' t',
    broadcast tr (VStr "hello") (mk_world [(1, "a"); (2, "b"); (3, "c"); (4, "d")] [])
    = (Returned tt, w') /\
    registry w' = [(1, "a"); (4, "d")] /\
    trace w' = [] ++ t' /\
    send_attempts t' = [1; 2; 4].
Proof.
  intros tr.
  destruct (broadcast_isolates_failures tr (VStr "hello")
              (mk_world [(1, "a"); (2, "b"); (3, "c"); (4, "d")] []) eq_refl)
    as [w' [t' [H1 [H2 [_ [H4 [_ [_ [H7 _]]]]]]]]].
  exists w', t'. split; [exact H1|]. split; [exact H2|]. split; [exact H4 | exact H7].
Defined.

(** ** The dispatcher *)

(** C10, as the code has it: with no queue [send] returns and changes
    nothing; with a queue that is unbounded or has a free slot it returns
    at once, the message appended and nothing else touched; with a bounded
    queue that is full it raises [queue.Full] and changes nothing. *)
Theorem send_enqueues_unless_full (message : value) (w : dworld) :
  (message_queue (self w) = None -> send message w = (Returned tt, w)) /\
  (forall q, message_queue (self w) = Some q ->
     (maxsize q <= 0 \/ Z.of_nat (List.length (queue q)) < maxsize q)%Z ->
     send message w
     = (Returned tt,
        {| self := {| message_queue :=
                        Some {| maxsize := maxsize q; queue := queue q ++ [message] |} |};
           directories := directories w;
           calls := calls w |})) /\
  (forall q, message_queue (self w) = Some q ->
     (0 < maxsize q <= Z.of_nat (List.length (queue q)))%Z ->
     send message w = (Raised Full, w)).
Proof.
  unfold send. split; [|split].
  - intros ->. reflexivity.
  - intros q -> Hroom. unfold put_nowait.
    destruct ((0 <? maxsize q)%Z && (maxsize q <=? Z.of_nat (List.length (queue q)))%Z)
      eqn:Hfull; [|reflexivity].
    apply andb_true_iff in Hfull. destruct Hfull as [H1 H2].
    apply Z.ltb_lt in H1. apply Z.leb_le in H2. lia.
  - intros q -> [H1 H2]. unfold put_nowait.
    apply Z.ltb_lt in H1. apply Z.leb_le in H2. rewrite H1, H2. reflexivity.
Qed.

(** C10 as stated fails: a queue bounded to one item that holds one. *)
Lemma send_raises_on_full_queue :
  send (VStr "status")
    (empty_dworld (Some {| maxsize := 1; queue := [VStr "earlier"] |}))
  = (Raised Full, empty_dworld (Some {| maxsize := 1; queue := [VStr "earlier"] |})).
Proof. reflexivity. Qed.

(** What [chat] does when no workflow is given, in full. *)
Lemma chat_without_workflow_eq (ext : Externals) (message : Message)
    (history : list value) (connection_id : value) (user_dir : option string)
    (w : dworld) :
  chat ext message history VNone connection_id user_dir w
  = match user_dir with
    | None =>
        (Raised (TypeError "expected str, bytes or os.PathLike object, not NoneType"), w)
    | Some d =>
        match makedirs_error ext (work_dir_of ext message d) with
        | Some e => (Raised e, w)
        | None =>
            (Raised (ValueError "Workflow must be specified"),
             {| self := self w;
                directories := with_directory (work_dir_of ext message d) (directories w);
                calls := calls w |})
        end
    end.
Proof.
  unfold chat, bind, os_makedirs, work_dir_of, with_directory.
  destruct user_dir as [d|]; [|reflexivity]. cbn.
  destruct (makedirs_error ext _); reflexivity.
Qed.

Lemma with_directory_In path dirs : In path (with_directory path dirs).
Proof.
  unfold with_directory. destruct (existsb (String.eqb path) dirs) eqn:Hex.
  - apply existsb_exists in Hex. destruct Hex as [p [Hin Heq]].
    apply String.eqb_eq in Heq. subst p. exact Hin.
  - apply in_or_app. right. left. reflexivity.
Qed.

(** C6, as the code has it: with no workflow, [chat] raises without
    constructing or running the executor and without touching the queue;
    the working directory is made first, so when [user_dir] is given and the
    file system lets it be created, it exists by the time
    [ValueError("Workflow must be specified")] is raised. *)
Theorem chat_without_workflow_fails (ext : Externals) (message : Message)
    (history : list value) (connection_id : value) (user_dir : option string)
    (w : dworld) :
  exists e w',
    chat ext message history VNone connection_id user_dir w = (Raised e, w') /\
    calls w' = calls w /\
    self w' = self w /\
    (forall d, user_dir = Some d ->
       makedirs_error ext (work_dir_of ext message d) = None ->
       e = ValueError "Workflow must be specified" /\
       In (work_dir_of ext message d) (directories w')).
Proof.
  rewrite chat_without_workflow_eq. destruct user_dir as [d|].
  - destruct (makedirs_error ext (work_dir_of ext message d)) eqn:Hmk.
    + exists e, w. split; [reflexivity|]. split; [reflexivity|]. split; [reflexivity|].
      intros d' Hd Hmk'. injection Hd as <-. congruence.
    + eexists. eexists. split; [reflexivity|]. cbn [calls self directories].
      split; [reflexivity|]. split; [reflexivity|].
      intros d' Hd _. injection Hd as <-. split; [reflexivity|].
      apply with_directory_In.
  - eexists. exists w. split; [reflexivity|]. split; [reflexivity|]. split; [reflexivity|].
    intros d Hd. discriminate.
Qed.

(** C6 as stated fails: the request fails for want of a workflow, and its
    working directory has been created all the same. *)
Lemma chat_creates_directory_before_failing :
  chat example_externals example_message [] VNone VNone (Some "/data") (empty_dworld None)
  = (Raised (ValueError "Workflow must be specified"),
     {| self := {| message_queue := None |};
        directories := ["/data/s1/20240101_00-00-00"];
        calls := [] |}).
Proof. reflexivity. Qed.

Lemma eq_str_false (v : value) (s : string) : v <> VStr s -> eq_str v s = false.
Proof.
  intros Hne. destruct v; try reflexivity. cbn.
  destruct (String.eqb_spec s0 s) as [->|]; [contradiction | reflexivity].
Qed.

(** C7: under the policy [last], with a trace of two entries whose last has
    content "B", the output is "B", a newline and "print(1)" when the
    extractor finds the one block "print(1)", and "B" alone when it finds
    none; nothing is sent and no collaborator is called. *)
Theorem last_summary_appends_code_blocks (ext : Externals) (message_text : string)
    (workflow_manager : WorkflowManager) (workflow : Workflow) (first : value)
    (w : dworld) :
  summary_method workflow = VStr "last" ->
  agent_history workflow_manager = [first; entry_with_content "B"] ->
  (extract_successful_code_blocks ext (agent_history workflow_manager) = ["print(1)"] ->
   _generate_output ext message_text workflow_manager workflow w
   = (Returned (VStr ("B" ++ newline ++ "print(1)")%string), w)) /\
  (extract_successful_code_blocks ext (agent_history workflow_manager) = [] ->
   _generate_output ext message_text workflow_manager workflow w
   = (Returned (VStr "B"), w)).
Proof.
  intros Hm Hh. unfold _generate_output. rewrite Hm, Hh. cbn [eq_str String.eqb].
  split; intros ->; reflexivity.
Qed.

Lemma last_summary_appends_code_blocks_witness :
  _generate_output (example_externals_finding ["print(1)"]) "task"
    example_workflow_manager {| summary_method := VStr "last" |} (empty_dworld None)
  = (Returned (VStr ("B" ++ newline ++ "print(1)")%string), empty_dworld None)
  /\
  _generate_output (example_externals_finding []) "task"
    example_workflow_manager {| summary_method := VStr "last" |} (empty_dworld None)
  = (Returned (VStr "B"), empty_dworld None).
Proof.
  split.
  - apply (last_summary_appends_code_blocks (example_externals_finding ["print(1)"])
             "task" example_workflow_manager {| summary_method := VStr "last" |}
             (entry_with_content "A") (empty_dworld None) eq_refl eq_refl).
    reflexivity.
  - apply (last_summary_appends_code_blocks (example_externals_finding [])
             "task" example_workflow_manager {| summary_method := VStr "last" |}
             (entry_with_content "A") (empty_dworld None) eq_refl eq_refl).
    reflexivity.
Defined.

(** C8: when the summary method is none of "last", "llm" and "none", the
    output is the empty string whatever the trace holds, nothing is sent
    and no collaborator is called. *)
Theorem unknown_summary_method_gives_empty (ext : Externals) (message_text : string)
    (workflow_manager : WorkflowManager) (workflow : Workflow) (w : dworld) :
  summary_method workflow <> VStr "last" ->
  summary_method workflow <> VStr "llm" ->
  summary_method workflow <> VStr "none" ->
  _generate_output ext message_text workflow_manager workflow w = (Returned (VStr ""), w).
Proof.
  intros Hlast Hllm Hnone. unfold _generate_output.
  rewrite (eq_str_false _ _ Hlast), (eq_str_false _ _ Hllm), (eq_str_false _ _ Hnone).
  reflexivity.
Qed.

Lemma unknown_summary_method_gives_empty_witness :
  _generate_output example_externals "task" example_workflow_manager
    {| summary_method := VStr "first" |}
    (empty_dworld (Some {| maxsize := 0; queue := [] |}))
  = (Returned (VStr ""), empty_dworld (Some {| maxsize := 0; queue := [] |})).
Proof.
  apply (unknown_summary_method_gives_empty example_externals "task"
           example_workflow_manager {| summary_method := VStr "first" |}
           (empty_dworld (Some {| maxsize := 0; queue := [] |}))); discriminate.
Defined.

(** * Further properties of the registry *)

Lemma without_app websocket l1 l2 :
  without websocket (l1 ++ l2) = without websocket l1 ++ without websocket l2.
Proof. unfold without. apply filter_app. Qed.

(** X1: on a registry whose lock is free, a connect whose handshake
    succeeds returns with the new entry appended after the entries that
    were there, which are kept as they were: one entry more, and the lock
    free again. *)
Theorem connect_appends_entry (tr : Transport) (websocket : WebSocket)
    (client_id : string) (w : world) :
  lock_free w ->
  accept tr websocket = None ->
  exists w',
    connect tr websocket client_id w = (Returned tt, w') /\
    registry w' = registry w ++ [(websocket, client_id)] /\
    List.length (registry w') = S (List.length (registry w)) /\
    trace w' = trace w ++ [EvAccept websocket; EvAcquire;
                           EvAppend websocket client_id; EvRelease] /\
    lock_free w'.
Proof.
  intros Hfree Hacc. free_world Hfree. rewrite (connect_mk_world _ _ _ _ _ Hacc).
  eexists. split; [reflexivity|].
  cbn [registry trace mk_world manager active_connections].
  split; [reflexivity|]. split; [|split; [reflexivity | apply mk_world_lock_free]].
  rewrite length_app. cbn. lia.
Qed.

Lemma connect_appends_entry_witness :
  exists w',
    connect healthy 3 "c" (mk_world [(1, "a"); (2, "b")] []) = (Returned tt, w') /\
    registry w' = [(1, "a"); (2, "b"); (3, "c")].
Proof.
  destruct (connect_appends_entry healthy 3 "c" (mk_world [(1, "a"); (2, "b")] [])
              eq_refl eq_refl) as [w' [H1 [H2 _]]].
  exists w'. split; [exact H1 | exact H2].
Defined.

(** X2: when the accept handshake raises, connect raises the same
    exception and nothing else has happened: no entry is added, the lock is
    not touched, whatever state the manager is in. *)
Theorem connect_failed_handshake_registers_nothing (tr : Transport)
    (websocket : WebSocket) (client_id : string) (w : world) (e : exn) :
  accept tr websocket = Some e ->
  connect tr websocket client_id w = (Raised e, w).
Proof.
  intros Hacc. unfold connect, websocket_accept, bind. rewrite Hacc. reflexivity.
Qed.

Lemma connect_failed_handshake_registers_nothing_witness :
  connect {| accept := fun _ => Some (OtherException "RuntimeError");
             send_json := fun _ _ => None;
             client_state_is_OPEN := fun _ => true |}
    3 "c" (mk_world [(1, "a")] [])
  = (Raised (OtherException "RuntimeError"), mk_world [(1, "a")] []).
Proof.
  apply (connect_failed_handshake_registers_nothing
           {| accept := fun _ => Some (OtherException "RuntimeError");
              send_json := fun _ _ => None;
              client_state_is_OPEN := fun _ => true |}
           3 "c" (mk_world [(1, "a")] []) (OtherException "RuntimeError") eq_refl).
Defined.

(** X3: connect followed by disconnect of the same handle leaves the
    registry without any entry of that handle, and exactly as it was before
    the connect when the handle was not registered. *)
Theorem connect_then_disconnect_restores (tr : Transport) (websocket : WebSocket)
    (client_id : string) (w : world) :
  lock_free w ->
  accept tr websocket = None ->
  exists w1 w2,
    connect tr websocket client_id w = (Returned tt, w1) /\
    disconnect websocket w1 = (Returned tt, w2) /\
    registry w2 = without websocket (registry w) /\
    (~ In websocket (handles (registry w)) -> registry w2 = registry w).
Proof.
  intros Hfree Hacc. free_world Hfree. rewrite (connect_mk_world _ _ _ _ _ Hacc).
  eexists. eexists. split; [reflexivity|]. rewrite disconnect_mk_world.
  split; [reflexivity|]. cbn [registry mk_world manager active_connections].
  assert (Heq : without websocket (l ++ [(websocket, client_id)]) = without websocket l).
  { rewrite without_app, without_cons, Nat.eqb_refl. cbn. apply app_nil_r. }
  split; [exact Heq|]. intros Hnot. rewrite Heq. apply without_absent, Hnot.
Qed.

Lemma connect_then_disconnect_restores_witness :
  exists w1 w2,
    connect healthy 3 "c" (mk_world [(1, "a"); (2, "b")] []) = (Returned tt, w1) /\
    disconnect 3 w1 = (Returned tt, w2) /\
    registry w2 = [(1, "a"); (2, "b")].
Proof.
  destruct (connect_then_disconnect_restores healthy 3 "c"
              (mk_world [(1, "a"); (2, "b")] []) eq_refl eq_refl)
    as [w1 [w2 [H1 [H2 [H3 _]]]]].
  exists w1, w2. split; [exact H1|]. split; [exact H2 | exact H3].
Defined.

(** X4: when the write succeeds, [send_message] returns with the registry
    as it was and exactly one write, made while the lock was held; it does
    not look whether the handle is registered. *)
Theorem send_message_success_keeps_registry (tr : Transport) (message : value)
    (websocket : WebSocket) (w : world) :
  lock_free w ->
  send_json tr message websocket = None ->
  exists w',
    send_message tr message websocket w = (Returned tt, w') /\
    registry w' = registry w /\
    trace w' = trace w ++ [EvAcquire; EvSendJson message websocket None; EvRelease] /\
    lock_free w'.
Proof.
  intros Hfree Hsend. free_world Hfree. rewrite send_message_mk_world, Hsend.
  eexists. split; [reflexivity|].
  cbn [registry trace mk_world manager active_connections].
  split; [reflexivity|]. split; [reflexivity | apply mk_world_lock_free].
Qed.

(** A write to a handle that was never connected. *)
Lemma send_message_success_keeps_registry_witness :
  exists w',
    send_message healthy (VStr "hi") 9 (mk_world [(1, "a")] []) = (Returned tt, w') /\
    registry w' = [(1, "a")] /\
    trace w' = [] ++ [EvAcquire; EvSendJson (VStr "hi") 9 None; EvRelease].
Proof.
  destruct (send_message_success_keeps_registry healthy (VStr "hi") 9
              (mk_world [(1, "a")] []) eq_refl eq_refl) as [w' [H1 [H2 [H3 _]]]].
  exists w'. split; [exact H1|]. split; [exact H2 | exact H3].
Defined.

(** ** The lock discipline *)

Lemma guarded_app t1 : forall held t2,
  guarded held t1 = true -> guarded false t2 = true -> guarded held (t1 ++ t2) = true.
Proof.
  induction t1 as [|e t1 IH]; intros held t2 H1 H2.
  - destruct held; [discriminate | exact H2].
  - destruct e, held; cbn in *; try discriminate; apply IH; assumption.
Qed.

Lemma disciplined_disconnect websocket : disciplined (disconnect websocket).
Proof.
  intros l t. rewrite disconnect_mk_world.
  eexists. eexists. eexists. split; [reflexivity|]. split; [discriminate | reflexivity].
Qed.

Lemma disciplined_connect tr websocket client_id :
  disciplined (connect tr websocket client_id).
Proof.
  intros l t. destruct (accept tr websocket) as [e|] eqn:Hacc.
  - exists (Raised e), l, []. rewrite app_nil_r.
    split; [|split; [discriminate | reflexivity]].
    unfold connect, websocket_accept, bind. rewrite Hacc. reflexivity.
  - rewrite (connect_mk_world _ _ _ _ _ Hacc).
    eexists. eexists. eexists. split; [reflexivity|]. split; [discriminate | reflexivity].
Qed.

Lemma disciplined_send_message tr message websocket :
  disciplined (send_message tr message websocket).
Proof.
  intros l t. rewrite send_message_mk_world.
  destruct (send_json tr message websocket);
    eexists; eexists; eexists; (split; [reflexivity|]); (split; [discriminate | reflexivity]).
Qed.

Lemma disciplined_for_each {A : Type} (body : A -> M world unit) (xs : list A) :
  (forall x, disciplined (body x)) -> disciplined (for_each xs body).
Proof.
  intros Hbody. induction xs as [|x xs IH]; intros l t.
  - exists (Returned tt), l, []. rewrite app_nil_r.
    split; [reflexivity|]. split; [discriminate | reflexivity].
  - cbn [for_each]. unfold bind.
    destruct (Hbody x l t) as [r [l1 [t1 [Hrun [Hnb Hg1]]]]]. rewrite Hrun.
    destruct r as [[]|e|].
    + destruct (IH l1 (t ++ t1)) as [r2 [l2 [t2 [Hrun2 [Hnb2 Hg2]]]]].
      rewrite Hrun2. exists r2, l2, (t1 ++ t2). rewrite app_assoc.
      split; [reflexivity|]. split; [exact Hnb2|]. apply guarded_app; assumption.
    + exists (Raised e), l1, t1. split; [reflexivity|]. split; [discriminate | exact Hg1].
    + contradiction.
Qed.

Lemma disciplined_disconnect_all : disciplined disconnect_all.
Proof.
  intros l t. unfold disconnect_all, bind, gets.
  cbn [mk_world manager active_connections]. fold (mk_world l t).
  apply (disciplined_for_each (fun conn : WebSocket * string => disconnect (fst conn))).
  intros conn. apply disciplined_disconnect.
Qed.

Lemma guarded_deliveries tr message (l : list (WebSocket * string)) :
  guarded false (flat_map (fun conn => delivery_trace tr message (fst conn)) l) = true.
Proof.
  induction l as [|conn l IH]; [reflexivity|].
  cbn [flat_map]. apply guarded_app; [|exact IH].
  unfold delivery_trace. destruct (client_state_is_OPEN tr (fst conn)); [|reflexivity].
  destruct (send_json tr (envelope message) (fst conn)); reflexivity.
Qed.

(** What a broadcast makes of a registry whose lock is free. *)
Lemma broadcast_mk_world tr message l t :
  broadcast tr message (mk_world l t)
  = (Returned tt,
     mk_world (filter (fun conn => negb (fails tr message (fst conn))) l)
       (t ++ flat_map (fun conn => delivery_trace tr message (fst conn)) l)).
Proof.
  unfold broadcast, bind, gets. cbn [mk_world manager active_connections].
  fold (mk_world l t). fold (envelope message).
  rewrite broadcast_loop_mk_world, survivors_of_snapshot. reflexivity.
Qed.

Lemma disciplined_broadcast tr message : disciplined (broadcast tr message).
Proof.
  intros l t. rewrite broadcast_mk_world.
  eexists. eexists. eexists. split; [reflexivity|].
  split; [discriminate | apply guarded_deliveries].
Qed.

(** X5: any sequence of calls of the five methods, started with the lock
    free, never waits for ever on the lock (no method takes it twice), ends
    with the lock free even when a call raised, and keeps the discipline of
    the lock all along: the list is changed and sockets are written to only
    under the lock, and the accept handshake is awaited outside it. *)
Theorem requests_keep_lock_discipline (tr : Transport) (reqs : list request)
    (w : world) :
  lock_free w ->
  guarded false (trace w) = true ->
  exists r w',
    for_each reqs (run_request tr) w = (r, w') /\
    r <> Blocked /\
    lock_free w' /\
    guarded false (trace w') = true.
Proof.
  intros Hfree Hg. free_world Hfree. cbn [trace mk_world] in Hg.
  destruct (disciplined_for_each (run_request tr) reqs) with (l := l) (t := t)
    as [r [l' [t' [Hrun [Hnb Hg']]]]].
  - intros [websocket client_id|websocket| |message websocket|message]; cbn [run_request].
    + apply disciplined_connect.
    + apply disciplined_disconnect.
    + apply disciplined_disconnect_all.
    + apply disciplined_send_message.
    + apply disciplined_broadcast.
  - exists r, (mk_world l' (t ++ t')). split; [exact Hrun|]. split; [exact Hnb|].
    split; [apply mk_world_lock_free|]. cbn [trace mk_world]. apply guarded_app; assumption.
Qed.

(** Two connects, a broadcast in which the first peer fails its write, a
    direct message, and a sweep. *)
Lemma requests_keep_lock_discipline_witness :
  let tr := {| accept := fun _ => None;
               send_json := fun _ websocket =>
                 if Nat.eqb websocket 1 then Some ConnectionClosedOK else None;
               client_state_is_OPEN := fun _ => true |} in
  exists r w',
    for_each [ReqConnect 1 "a"; ReqConnect 2 "b"; ReqBroadcast (VStr "x");
              ReqSendMessage (VStr "y") 2; ReqDisconnectAll]
      (run_request tr) initial_world = (r, w') /\
    r <> Blocked /\
    guarded false (trace w') = true.
Proof.
  intros tr.
  destruct (requests_keep_lock_discipline tr
              [ReqConnect 1 "a"; ReqConnect 2 "b"; ReqBroadcast (VStr "x");
               ReqSendMessage (VStr "y") 2; ReqDisconnectAll]
              initial_world eq_refl eq_refl) as [r [w' [H1 [H2 [_ H4]]]]].
  exists r, w'. split; [exact H1|]. split; [exact H2 | exact H4].
Defined.

(** ** More on broadcast *)

Lemma in_deliveries tr message (l : list (WebSocket * string)) (e : event) :
  In e (flat_map (fun conn => delivery_trace tr message (fst conn)) l) ->
  exists conn, In conn l /\ In e (delivery_trace tr message (fst conn)).
Proof. intros Hin. apply in_flat_map in Hin. exact Hin. Qed.

(** X6: whatever a broadcast writes is the envelope of its payload, written
    to the handle of an entry of the registry that the transport reports
    open, and recorded with the outcome the transport gave; a broadcast
    adds no entry to the registry. *)
Theorem broadcast_writes_only_envelopes (tr : Transport) (message : value) (w : world) :
  lock_free w ->
  exists w' t',
    broadcast tr message w = (Returned tt, w') /\
    trace w' = trace w ++ t' /\
    (forall m websocket outcome, In (EvSendJson m websocket outcome) t' ->
       m = VDict [("message", message)] /\
       In websocket (handles (registry w)) /\
       client_state_is_OPEN tr websocket = true /\
       outcome = send_json tr m websocket) /\
    (forall websocket client_id, ~ In (EvAppend websocket client_id) t') /\
    incl (registry w') (registry w).
Proof.
  intros Hfree. free_world Hfree. rewrite broadcast_mk_world.
  eexists. eexists. split; [reflexivity|].
  cbn [registry trace mk_world manager active_connections].
  split; [reflexivity|]. split; [|split].
  - intros m websocket outcome Hin. apply in_deliveries in Hin.
    destruct Hin as [conn [Hconn Hin]]. unfold delivery_trace in Hin.
    assert (Hh : In (fst conn) (handles l)) by (apply in_map; exact Hconn).
    destruct (client_state_is_OPEN tr (fst conn)) eqn:Hopen.
    + destruct (send_json tr (envelope message) (fst conn)) eqn:Hsend;
        cbn in Hin;
        repeat (destruct Hin as [Hin | Hin]; try discriminate; try contradiction);
        injection Hin as <- <- <-;
        (split; [reflexivity|]); (split; [exact Hh|]);
        (split; [exact Hopen | symmetry; exact Hsend]).
    + cbn in Hin.
      repeat (destruct Hin as [Hin | Hin]; try discriminate; try contradiction).
  - intros websocket client_id Hin. apply in_deliveries in Hin.
    destruct Hin as [conn [_ Hin]]. unfold delivery_trace in Hin.
    destruct (client_state_is_OPEN tr (fst conn));
      [destruct (send_json tr (envelope message) (fst conn))|];
      cbn in Hin;
      repeat (destruct Hin as [Hin | Hin]; try discriminate; try contradiction).
  - intros conn Hin. apply filter_In in Hin. tauto.
Qed.

Lemma broadcast_writes_only_envelopes_witness :
  exists w' t',
    broadcast healthy (VStr "hello") (mk_world [(1, "a"); (2, "b")] []) = (Returned tt, w') /\
    trace w' = [] ++ t' /\
    incl (registry w') [(1, "a"); (2, "b")].
Proof.
  destruct (broadcast_writes_only_envelopes healthy (VStr "hello")
              (mk_world [(1, "a"); (2, "b")] []) eq_refl)
    as [w' [t' [H1 [H2 [_ [_ H5]]]]]].
  exists w', t'. split; [exact H1|]. split; [exact H2 | exact H5].
Defined.

Lemma flat_map_ext_in {A B : Type} (f g : A -> list B) (l : list A) :
  (forall x, In x l -> f x = g x) -> flat_map f l = flat_map g l.
Proof.
  induction l as [|x l IH]; intros Heq; [reflexivity|].
  cbn. rewrite (Heq x (or_introl eq_refl)), IH; [reflexivity|].
  intros y Hy. apply Heq. right. exact Hy.
Qed.

(** X7: when every registered peer is open and takes the write, a broadcast
    leaves the registry as it was and writes the envelope once per entry, in
    the order of the registry, each write under its own hold of the lock. *)
Theorem broadcast_to_healthy_peers (tr : Transport) (message : value) (w : world) :
  lock_free w ->
  (forall conn, In conn (registry w) ->
     client_state_is_OPEN tr (fst conn) = true /\
     send_json tr (VDict [("message", message)]) (fst conn) = None) ->
  exists w',
    broadcast tr message w = (Returned tt, w') /\
    registry w' = registry w /\
    trace w'
    = trace w ++ flat_map (fun conn : WebSocket * string =>
                   [EvAcquire; EvSendJson (VDict [("message", message)]) (fst conn) None;
                    EvRelease]) (registry w).
Proof.
  intros Hfree Hok. free_world Hfree. rewrite broadcast_mk_world.
  cbn [registry mk_world manager active_connections] in Hok.
  eexists. split; [reflexivity|].
  cbn [registry trace mk_world manager active_connections]. split.
  - rewrite (filter_ext_in _ (fun _ => true)); [apply filter_const_true|].
    intros conn Hin. destruct (Hok conn Hin) as [Hopen Hsend].
    unfold fails, envelope. rewrite Hopen, Hsend. reflexivity.
  - f_equal. apply flat_map_ext_in. intros conn Hin.
    destruct (Hok conn Hin) as [Hopen Hsend].
    unfold delivery_trace, envelope. rewrite Hopen, Hsend. reflexivity.
Qed.

Lemma broadcast_to_healthy_peers_witness :
  exists w',
    broadcast healthy (VStr "hello") (mk_world [(1, "a"); (2, "b")] []) = (Returned tt, w') /\
    registry w' = [(1, "a"); (2, "b")] /\
    trace w'
    = [EvAcquire; EvSendJson (VDict [("message", VStr "hello")]) 1 None; EvRelease;
       EvAcquire; EvSendJson (VDict [("message", VStr "hello")]) 2 None; EvRelease].
Proof.
  destruct (broadcast_to_healthy_peers healthy (VStr "hello")
              (mk_world [(1, "a"); (2, "b")] []) eq_refl
              (fun _ _ => conj eq_refl eq_refl)) as [w' [H1 [H2 H3]]].
  exists w'. split; [exact H1|]. split; [exact H2 | exact H3].
Defined.

(** ** Broadcast to the sockets the module declares *)

Lemma filter_const_false (l : list (WebSocket * string)) :
  filter (fun _ => false) l = [].
Proof. induction l as [|c l IH]; [reflexivity | exact IH]. Qed.

(** C1, the code at the failing input: for the FastAPI sockets the module
    declares, whose [client_state] is a [WebSocketState], the test
    [client_state == websockets.protocol.State.OPEN] is false for every
    peer, whatever its state.  So a broadcast over a registry whose lock is
    free, peers that are connected and take every write included, writes to
    nobody, disconnects every connection and returns with the registry
    empty: the connections that did not fail are not sent the envelope and
    do not stay registered. *)
Theorem broadcast_removes_every_fastapi_socket (accept : WebSocket -> option exn)
    (send_json : value -> WebSocket -> option exn)
    (client_state : WebSocket -> WebSocketState) (message : value) (w : world) :
  lock_free w ->
  exists w' t',
    broadcast (fastapi_transport accept send_json client_state) message w
    = (Returned tt, w') /\
    registry w' = [] /\
    trace w' = trace w ++ t' /\
    t' = flat_map (fun conn : WebSocket * string =>
           [EvAcquire; EvRemove (fst conn); EvRelease]) (registry w) /\
    send_attempts t' = [].
Proof.
  intros Hfree. free_world Hfree. rewrite broadcast_mk_world.
  eexists. eexists. split; [reflexivity|].
  cbn [registry trace mk_world manager active_connections].
  split; [apply filter_const_false|]. split; [reflexivity|]. split; [reflexivity|].
  rewrite send_attempts_deliveries. cbn. rewrite filter_const_false. reflexivity.
Qed.

(** Two peers that are connected and would take the write. *)
Lemma broadcast_removes_every_fastapi_socket_witness :
  exists w' t',
    broadcast
      (fastapi_transport (fun _ => None) (fun _ _ => None)
         (fun _ => WebSocketState_CONNECTED))
      (VStr "hello") (mk_world [(1, "a"); (2, "b")] []) = (Returned tt, w') /\
    registry w' = [] /\
    trace w' = [] ++ t' /\
    t' = [EvAcquire; EvRemove 1; EvRelease; EvAcquire; EvRemove 2; EvRelease].
Proof.
  destruct (broadcast_removes_every_fastapi_socket (fun _ => None) (fun _ _ => None)
              (fun _ => WebSocketState_CONNECTED) (VStr "hello")
              (mk_world [(1, "a"); (2, "b")] []) eq_refl)
    as [w' [t' [H1 [H2 [H3 [H4 _]]]]]].
  exists w', t'. split; [exact H1|]. split; [exact H2|]. split; [exact H3 | exact H4].
Defined.

(** ** A manager without a lock *)

Lemma with_lock_no_lock {A : Type} (body : M world A) (w : world) :
  no_lock w ->
  with_lock body w
  = (Raised (TypeError "'NoneType' object does not support the asynchronous context manager protocol"), w).
Proof. unfold no_lock, with_lock. intros ->. reflexivity. Qed.

(** X8: on a manager built without a lock, as the constructor's default
    builds it, no method gets past [async with]: disconnect raises and
    changes nothing; [send_message] raises, from the disconnect of its
    own handler, without having written; connect, when the handshake
    succeeds, has accepted the socket and then raises without registering
    it. *)
Theorem without_lock_every_call_raises (tr : Transport) (w : world) :
  no_lock w ->
  (forall websocket, exists e, disconnect websocket w = (Raised e, w)) /\
  (forall message websocket, exists e,
     send_message tr message websocket w = (Raised e, w)) /\
  (forall websocket client_id, accept tr websocket = None ->
     exists e,
       connect tr websocket client_id w
       = (Raised e, {| manager := manager w; trace := trace w ++ [EvAccept websocket] |})).
Proof.
  intros Hno. split; [|split].
  - intros websocket. eexists. unfold disconnect. apply with_lock_no_lock, Hno.
  - intros message websocket. eexists.
    unfold send_message, try_except. rewrite (with_lock_no_lock _ _ Hno).
    cbv iota beta. unfold disconnect. apply with_lock_no_lock, Hno.
  - intros websocket client_id Hacc. eexists.
    unfold connect, websocket_accept, bind. rewrite Hacc.
    unfold log, modify. apply with_lock_no_lock. exact Hno.
Qed.

Lemma without_lock_every_call_raises_witness :
  exists e,
    connect healthy 1 "a" {| manager := init None None; trace := [] |}
    = (Raised e, {| manager := init None None; trace := [EvAccept 1] |}).
Proof.
  destruct (without_lock_every_call_raises healthy
              {| manager := init None None; trace := [] |} eq_refl) as [_ [_ H]].
  exact (H 1 "a" eq_refl).
Defined.

(** * Further properties of the dispatcher *)

(** ** The policy [last] *)

Lemma string_append_assoc (a b c : string) :
  ((a ++ b) ++ c)%string = (a ++ (b ++ c))%string.
Proof. induction a as [|ch a IH]; [reflexivity|]. cbn. rewrite IH. reflexivity. Qed.

(** What the policy [last] computes, given the content it reads. *)
Lemma generate_output_last_eq (ext : Externals) (message_text : string)
    (workflow_manager : WorkflowManager) (workflow : Workflow)
    (rest : list value) (entry : value) (w : dworld) :
  summary_method workflow = VStr "last" ->
  agent_history workflow_manager = rest ++ [entry] ->
  _generate_output ext message_text workflow_manager workflow w
  = match getitem entry "message" with
    | inl e => (Raised e, w)
    | inr message =>
        match getitem message "content" with
        | inl e => (Raised e, w)
        | inr last_message =>
            if negb (String.eqb
                       (joined_code_blocks ext (agent_history workflow_manager)) "")
            then
              match add_str last_message newline with
              | inl e => (Raised e, w)
              | inr with_newline =>
                  match add_str with_newline
                          (joined_code_blocks ext (agent_history workflow_manager)) with
                  | inl e => (Raised e, w)
                  | inr output => (Returned output, w)
                  end
              end
            else (Returned last_message, w)
        end
    end.
Proof.
  intros Hm Hh. unfold _generate_output, joined_code_blocks. rewrite Hm.
  cbn [eq_str String.eqb Ascii.eqb Bool.eqb]. cbv iota.
  rewrite Hh. unfold bind, lift_sum, ret, raise.
  assert (Hlast : forall first others, last (others ++ [entry]) first = entry)
    by (intros; apply last_last).
  destruct rest as [|first rest']; cbn [app]; rewrite ?Hlast.
  all: cbn [last].
  all: set (blocks := String.concat _ _).
  all: destruct (getitem entry "message") as [e|message]; [reflexivity|].
  all: destruct (getitem message "content") as [e|last_message]; [reflexivity|].
  all: destruct (negb _); [|reflexivity].
  all: destruct (add_str last_message newline) as [e|with_newline]; [reflexivity|].
  all: destruct (add_str with_newline _); reflexivity.
Qed.

Lemma string_append_empty (a b : string) :
  (a ++ b)%string = "" -> a = "" /\ b = "".
Proof. destruct a; cbn; [intros ->; split; reflexivity | discriminate]. Qed.

(** When the joined blocks make the empty string: there is no block, or
    there is one and it is empty. *)
Lemma joined_empty_iff (blocks : list string) :
  String.concat (newline ++ newline) blocks = "" <-> blocks = [] \/ blocks = [""].
Proof.
  split.
  - destruct blocks as [|x [|y blocks]]; cbn [String.concat].
    + intros _. left. reflexivity.
    + intros ->. right. reflexivity.
    + intros H. apply string_append_empty in H. destruct H as [_ H].
      apply string_append_empty in H. destruct H as [H _]. discriminate H.
  - intros [-> | ->]; reflexivity.
Qed.

(** X9: under the policy [last], when the last entry of the trace has the
    string [c] as its message's content, the output is [c] alone if the
    extracted code blocks, joined by blank lines, make the empty string,
    which is when no block was found or one empty block was, and
    otherwise [c], a newline and the joined blocks; the state is
    untouched. *)
Theorem last_summary_formula (ext : Externals) (message_text : string)
    (workflow_manager : WorkflowManager) (workflow : Workflow)
    (rest : list value) (entry message : value) (c : string) (w : dworld) :
  summary_method workflow = VStr "last" ->
  agent_history workflow_manager = rest ++ [entry] ->
  getitem entry "message" = inr message ->
  getitem message "content" = inr (VStr c) ->
  _generate_output ext message_text workflow_manager workflow w
  = (Returned
       (VStr (if String.eqb (joined_code_blocks ext (agent_history workflow_manager)) ""
              then c
              else c ++ newline
                     ++ String.concat (newline ++ newline)
                          (extract_successful_code_blocks ext
                             (agent_history workflow_manager)))%string),
     w) /\
  (joined_code_blocks ext (agent_history workflow_manager) = "" <->
   extract_successful_code_blocks ext (agent_history workflow_manager) = [] \/
   extract_successful_code_blocks ext (agent_history workflow_manager) = [""]).
Proof.
  intros Hm Hh He Hc. split; [|apply joined_empty_iff].
  rewrite (generate_output_last_eq ext message_text workflow_manager workflow rest entry w
             Hm Hh), He, Hc.
  destruct (String.eqb (joined_code_blocks ext (agent_history workflow_manager)) "");
    cbn [negb]; [reflexivity|].
  cbn [add_str]. unfold joined_code_blocks. rewrite string_append_assoc. reflexivity.
Qed.

(** Two blocks, and two empty blocks: these join to the separator, which
    is appended. *)
Lemma last_summary_formula_witness :
  _generate_output (example_externals_finding ["x = 1"; "print(x)"]) "task"
    example_workflow_manager {| summary_method := VStr "last" |} (empty_dworld None)
  = (Returned (VStr ("B" ++ newline ++ "x = 1" ++ newline ++ newline ++ "print(x)")%string),
     empty_dworld None) /\
  _generate_output (example_externals_finding [""; ""]) "task"
    example_workflow_manager {| summary_method := VStr "last" |} (empty_dworld None)
  = (Returned (VStr ("B" ++ newline ++ newline ++ newline)%string), empty_dworld None).
Proof.
  split.
  - exact (proj1 (last_summary_formula (example_externals_finding ["x = 1"; "print(x)"])
             "task" example_workflow_manager {| summary_method := VStr "last" |}
             [entry_with_content "A"] (entry_with_content "B")
             (VDict [("content", VStr "B")]) "B" (empty_dworld None)
             eq_refl eq_refl eq_refl eq_refl)).
  - exact (proj1 (last_summary_formula (example_externals_finding [""; ""])
             "task" example_workflow_manager {| summary_method := VStr "last" |}
             [entry_with_content "A"] (entry_with_content "B")
             (VDict [("content", VStr "B")]) "B" (empty_dworld None)
             eq_refl eq_refl eq_refl eq_refl)).
Defined.

(** X10: under the policy [last] with an empty trace, the output is the
    empty string when the extractor's blocks join to nothing, and otherwise
    a newline followed by the joined blocks; no entry is read. *)
Theorem last_summary_of_empty_trace (ext : Externals) (message_text : string)
    (workflow_manager : WorkflowManager) (workflow : Workflow) (w : dworld) :
  summary_method workflow = VStr "last" ->
  agent_history workflow_manager = [] ->
  _generate_output ext message_text workflow_manager workflow w
  = (Returned (VStr (if String.eqb (joined_code_blocks ext []) "" then ""
                     else newline ++ joined_code_blocks ext [])%string), w).
Proof.
  intros Hm Hh. unfold _generate_output, joined_code_blocks. rewrite Hm, Hh.
  cbn [eq_str String.eqb Ascii.eqb Bool.eqb]. cbv iota.
  unfold bind, lift_sum, ret, raise.
  destruct (String.eqb (String.concat _ _) ""); reflexivity.
Qed.

Lemma last_summary_of_empty_trace_witness :
  _generate_output example_externals "task"
    {| agent_history := []; receiver_client := VNone; connection_id := VNone |}
    {| summary_method := VStr "last" |} (empty_dworld None)
  = (Returned (VStr ""), empty_dworld None).
Proof.
  apply (last_summary_of_empty_trace example_externals "task"
           {| agent_history := []; receiver_client := VNone; connection_id := VNone |}
           {| summary_method := VStr "last" |} (empty_dworld None) eq_refl eq_refl).
Defined.

(** X11: under the policy [last], when the last entry of the trace is a
    dictionary without the key "message", or its message is a dictionary
    without the key "content", the lookup raises [KeyError] for that key;
    the earlier entries are not looked at and the state is untouched. *)
Theorem last_summary_missing_key (ext : Externals) (message_text : string)
    (workflow_manager : WorkflowManager) (workflow : Workflow)
    (rest : list value) (d : list (string * value)) (w : dworld) :
  summary_method workflow = VStr "last" ->
  agent_history workflow_manager = rest ++ [VDict d] ->
  (lookup "message" d = None ->
   _generate_output ext message_text workflow_manager workflow w
   = (Raised (KeyError "message"), w)) /\
  (forall d', lookup "message" d = Some (VDict d') -> lookup "content" d' = None ->
   _generate_output ext message_text workflow_manager workflow w
   = (Raised (KeyError "content"), w)).
Proof.
  intros Hm Hh.
  rewrite (generate_output_last_eq ext message_text workflow_manager workflow rest
             (VDict d) w Hm Hh).
  split.
  - intros Hl. cbn [getitem]. rewrite Hl. reflexivity.
  - intros d' Hl Hc. cbn [getitem]. rewrite Hl. cbn [getitem]. rewrite Hc. reflexivity.
Qed.

Lemma last_summary_missing_key_witness :
  _generate_output example_externals "task"
    {| agent_history := [entry_with_content "A"; VDict [("content", VStr "B")]];
       receiver_client := VNone; connection_id := VNone |}
    {| summary_method := VStr "last" |} (empty_dworld None)
  = (Raised (KeyError "message"), empty_dworld None).
Proof.
  apply (last_summary_missing_key example_externals "task"
           {| agent_history := [entry_with_content "A"; VDict [("content", VStr "B")]];
              receiver_client := VNone; connection_id := VNone |}
           {| summary_method := VStr "last" |}
           [entry_with_content "A"] [("content", VStr "B")] (empty_dworld None)
           eq_refl eq_refl).
  reflexivity.
Defined.

(** X12: under the policy [last], a content that is not a string is
    returned as it is when the blocks join to nothing, so the output need
    not be a string; when there are blocks to append, the concatenation
    raises [TypeError]. *)
Theorem last_summary_content_not_a_string (ext : Externals) (message_text : string)
    (workflow_manager : WorkflowManager) (workflow : Workflow)
    (rest : list value) (entry message v : value) (w : dworld) :
  summary_method workflow = VStr "last" ->
  agent_history workflow_manager = rest ++ [entry] ->
  getitem entry "message" = inr message ->
  getitem message "content" = inr v ->
  (forall s, v <> VStr s) ->
  (joined_code_blocks ext (agent_history workflow_manager) = "" ->
   _generate_output ext message_text workflow_manager workflow w = (Returned v, w)) /\
  (joined_code_blocks ext (agent_history workflow_manager) <> "" ->
   exists msg,
     _generate_output ext message_text workflow_manager workflow w
     = (Raised (TypeError msg), w)).
Proof.
  intros Hm Hh He Hc Hns.
  rewrite (generate_output_last_eq ext message_text workflow_manager workflow rest entry w
             Hm Hh), He, Hc.
  split.
  - intros ->. reflexivity.
  - intros Hne.
    destruct (String.eqb_spec (joined_code_blocks ext (agent_history workflow_manager)) "")
      as [Heq|_]; [contradiction|].
    cbn [negb]. eexists. destruct v; try reflexivity. exfalso. apply (Hns s). reflexivity.
Qed.

Lemma last_summary_content_not_a_string_witness :
  _generate_output example_externals "task"
    {| agent_history := [VDict [("message", VDict [("content", VNone)])]];
       receiver_client := VNone; connection_id := VNone |}
    {| summary_method := VStr "last" |} (empty_dworld None)
  = (Returned VNone, empty_dworld None).
Proof.
  apply (last_summary_content_not_a_string example_externals "task"
           {| agent_history := [VDict [("message", VDict [("content", VNone)])]];
              receiver_client := VNone; connection_id := VNone |}
           {| summary_method := VStr "last" |}
           [] (VDict [("message", VDict [("content", VNone)])])
           (VDict [("content", VNone)]) VNone (empty_dworld None)
           eq_refl eq_refl eq_refl eq_refl).
  - intros s. discriminate.
  - reflexivity.
Defined.

(** ** Which policies touch the queue *)

(** X13: unless the summary method is "llm", [_generate_output] leaves the
    state as it found it, whether it returns or raises: nothing is queued,
    no directory is made, and the summarizer is not called, its outcome
    being the same whatever summarizer it is given.  (Under "last" it does
    call the code-block extractor.) *)
Theorem only_llm_changes_state (ext : Externals) (message_text : string)
    (workflow_manager : WorkflowManager) (workflow : Workflow) (w : dworld) :
  summary_method workflow <> VStr "llm" ->
  snd (_generate_output ext message_text workflow_manager workflow w) = w /\
  (forall summarizer,
     _generate_output (with_summarizer ext summarizer) message_text workflow_manager
       workflow w
     = _generate_output ext message_text workflow_manager workflow w).
Proof.
  intros Hllm. split.
  - unfold _generate_output. rewrite (eq_str_false _ _ Hllm).
    destruct (eq_str (summary_method workflow) "last").
    + unfold bind, lift_sum, ret, raise.
      destruct (agent_history workflow_manager) as [|first others].
      * destruct (negb _); reflexivity.
      * destruct (getitem (last others first) "message") as [e|message]; [reflexivity|].
        destruct (getitem message "content") as [e|last_message]; [reflexivity|].
        destruct (negb _); [|reflexivity].
        destruct (add_str last_message newline) as [e|with_newline]; [reflexivity|].
        destruct (add_str with_newline _); reflexivity.
    + destruct (eq_str (summary_method workflow) "none"); reflexivity.
  - intros summarizer. unfold _generate_output. rewrite (eq_str_false _ _ Hllm).
    reflexivity.
Qed.

Lemma only_llm_changes_state_witness :
  snd (_generate_output example_externals "task" example_workflow_manager
         {| summary_method := VStr "none" |}
         (empty_dworld (Some {| maxsize := 0; queue := [] |})))
  = empty_dworld (Some {| maxsize := 0; queue := [] |}).
Proof.
  apply (only_llm_changes_state example_externals "task" example_workflow_manager
           {| summary_method := VStr "none" |}
           (empty_dworld (Some {| maxsize := 0; queue := [] |}))).
  discriminate.
Defined.

(** ** The policy [llm] *)

Lemma send_with_room (message : value) (w : dworld) :
  (forall q, message_queue (self w) = Some q -> has_room q) ->
  send message w
  = (Returned tt, with_queue (option_map (enqueue message) (message_queue (self w))) w).
Proof.
  intros Hroom. destruct w as [[[q|]] dirs cs]; unfold send, with_queue; cbn in *.
  - specialize (Hroom q eq_refl). unfold has_room in Hroom. unfold put_nowait, enqueue.
    destruct ((0 <? maxsize q)%Z && (maxsize q <=? Z.of_nat (List.length (queue q)))%Z)
      eqn:Hfull; [|reflexivity].
    apply andb_true_iff in Hfull. destruct Hfull as [H1 H2].
    apply Z.ltb_lt in H1. apply Z.leb_le in H2. lia.
  - reflexivity.
Qed.

(** X14: under the policy [llm], when the status notice can be built
    ([SocketMessage] with type "agent_status", the data "summarizing" and
    the executor's connection id does not raise) and there is no queue or
    the queue takes one more item, the notice's [dict()] is queued, once
    and behind what was queued, before the summarizer is called with the
    task text, the trace and the executor's client; the output is the
    summarizer's text as it is, and an exception of the summarizer is
    raised on, the notice staying queued. *)
Theorem llm_summary_sends_notice_first (ext : Externals) (message_text : string)
    (workflow_manager : WorkflowManager) (workflow : Workflow)
    (status_message : value) (w : dworld) :
  summary_method workflow = VStr "llm" ->
  SocketMessage ext (VStr "agent_status") summarizing_data (connection_id workflow_manager)
  = inr status_message ->
  (forall q, message_queue (self w) = Some q -> has_room q) ->
  _generate_output ext message_text workflow_manager workflow w
  = (match summarize_chat_history ext message_text (agent_history workflow_manager)
             (receiver_client workflow_manager) with
     | inl e => Raised e
     | inr summary => Returned (VStr summary)
     end,
     {| self :=
          {| message_queue :=
               option_map (enqueue (SocketMessage_dict ext status_message))
                 (message_queue (self w)) |};
        directories := directories w;
        calls := calls w ++ [CallSummarize message_text (agent_history workflow_manager)
                               (receiver_client workflow_manager)] |}).
Proof.
  intros Hm Hbuilt Hroom. unfold _generate_output. rewrite Hm.
  cbn [eq_str String.eqb Ascii.eqb Bool.eqb]. cbv iota.
  fold summarizing_data. rewrite Hbuilt.
  unfold bind at 1. cbn [lift_sum ret].
  unfold bind. rewrite (send_with_room _ _ Hroom).
  unfold log_call, modify, with_queue, lift_sum, ret, raise. cbn [self directories calls].
  destruct (summarize_chat_history ext message_text _ _); reflexivity.
Qed.

Lemma llm_summary_sends_notice_first_witness :
  _generate_output example_externals "task" example_connected_workflow_manager
    {| summary_method := VStr "llm" |}
    (empty_dworld (Some {| maxsize := 2; queue := [VStr "earlier"] |}))
  = (Returned (VStr "summary"),
     {| self := {| message_queue :=
                     Some {| maxsize := 2;
                             queue := [VStr "earlier";
                                       VDict [("connection_id", VStr "c1");
                                              ("data", summarizing_data);
                                              ("type", VStr "agent_status")]] |} |};
        directories := [];
        calls := [CallSummarize "task" (agent_history example_connected_workflow_manager)
                    VNone] |}).
Proof.
  apply (llm_summary_sends_notice_first example_externals "task"
           example_connected_workflow_manager {| summary_method := VStr "llm" |}
           (VDict [("connection_id", VStr "c1"); ("data", summarizing_data);
                   ("type", VStr "agent_status")])
           (empty_dworld (Some {| maxsize := 2; queue := [VStr "earlier"] |}))
           eq_refl eq_refl).
  intros q Hq. injection Hq as <-. right. cbn. lia.
Defined.

(** X15: under the policy [llm], when the status notice cannot be sent the
    summarizer is not called and the state is untouched: if the
    construction of the [SocketMessage] raises, that exception is raised;
    if the notice is built but the queue is bounded and full, [queue.Full]
    is raised. *)
Theorem llm_summary_notice_not_sent (ext : Externals) (message_text : string)
    (workflow_manager : WorkflowManager) (workflow : Workflow) (w : dworld) :
  summary_method workflow = VStr "llm" ->
  (forall e,
     SocketMessage ext (VStr "agent_status") summarizing_data
       (connection_id workflow_manager) = inl e ->
     _generate_output ext message_text workflow_manager workflow w = (Raised e, w)) /\
  (forall status_message q,
     SocketMessage ext (VStr "agent_status") summarizing_data
       (connection_id workflow_manager) = inr status_message ->
     message_queue (self w) = Some q ->
     (0 < maxsize q <= Z.of_nat (List.length (queue q)))%Z ->
     _generate_output ext message_text workflow_manager workflow w = (Raised Full, w)).
Proof.
  intros Hm. unfold _generate_output. rewrite Hm.
  cbn [eq_str String.eqb Ascii.eqb Bool.eqb]. cbv iota. fold summarizing_data.
  split.
  - intros e Hbuilt. rewrite Hbuilt. reflexivity.
  - intros status_message q Hbuilt Hq [H1 H2]. rewrite Hbuilt.
    unfold bind at 1. cbn [lift_sum ret].
    unfold bind, send. rewrite Hq. unfold put_nowait.
    apply Z.ltb_lt in H1. apply Z.leb_le in H2. rewrite H1, H2. reflexivity.
Qed.

(** A connection id that is a string and a full queue; and no connection
    id, which the constructor of the examples refuses. *)
Lemma llm_summary_notice_not_sent_witness :
  _generate_output example_externals "task" example_connected_workflow_manager
    {| summary_method := VStr "llm" |}
    (empty_dworld (Some {| maxsize := 1; queue := [VStr "earlier"] |}))
  = (Raised Full, empty_dworld (Some {| maxsize := 1; queue := [VStr "earlier"] |})) /\
  _generate_output example_externals "task" example_workflow_manager
    {| summary_method := VStr "llm" |}
    (empty_dworld (Some {| maxsize := 0; queue := [] |}))
  = (Raised (OtherException "ValidationError"),
     empty_dworld (Some {| maxsize := 0; queue := [] |})).
Proof.
  split.
  - apply (proj2 (llm_summary_notice_not_sent example_externals "task"
                    example_connected_workflow_manager {| summary_method := VStr "llm" |}
                    (empty_dworld (Some {| maxsize := 1; queue := [VStr "earlier"] |}))
                    eq_refl)
             (VDict [("connection_id", VStr "c1"); ("data", summarizing_data);
                     ("type", VStr "agent_status")])
             {| maxsize := 1; queue := [VStr "earlier"] |} eq_refl eq_refl).
    cbn. lia.
  - apply (proj1 (llm_summary_notice_not_sent example_externals "task"
                    example_workflow_manager {| summary_method := VStr "llm" |}
                    (empty_dworld (Some {| maxsize := 0; queue := [] |})) eq_refl)
             (OtherException "ValidationError") eq_refl).
Defined.

(** ** The queue *)

Lemma for_each_send_unbounded (messages : list value) : forall (q : Queue) dirs cs,
  (maxsize q <= 0)%Z ->
  for_each messages send
    {| self := {| message_queue := Some q |}; directories := dirs; calls := cs |}
  = (Returned tt,
     {| self := {| message_queue :=
                     Some {| maxsize := maxsize q; queue := queue q ++ messages |} |};
        directories := dirs; calls := cs |}).
Proof.
  induction messages as [|m messages IH]; intros q dirs cs Hun.
  - cbn. rewrite app_nil_r. destruct q. reflexivity.
  - cbn [for_each]. unfold bind.
    rewrite send_with_room by (intros q' Hq'; injection Hq' as <-; left; exact Hun).
    unfold with_queue, enqueue. cbn [self message_queue option_map directories calls].
    rewrite IH by exact Hun. cbn [maxsize queue]. rewrite <- app_assoc. reflexivity.
Qed.

(** X16: on an unbounded queue, sending messages one after the other
    returns each time and queues them in the order sent, behind what was
    queued; directories and calls are not touched. *)
Theorem sends_are_queued_in_order (messages : list value) (w : dworld) (q : Queue) :
  message_queue (self w) = Some q ->
  (maxsize q <= 0)%Z ->
  for_each messages send w
  = (Returned tt,
     {| self := {| message_queue :=
                     Some {| maxsize := maxsize q; queue := queue q ++ messages |} |};
        directories := directories w;
        calls := calls w |}).
Proof.
  intros Hq Hun. destruct w as [[mq] dirs cs]. cbn in Hq. subst mq.
  apply for_each_send_unbounded. exact Hun.
Qed.

Lemma sends_are_queued_in_order_witness :
  for_each [VStr "b"; VStr "c"] send
    (empty_dworld (Some {| maxsize := 0; queue := [VStr "a"] |}))
  = (Returned tt,
     empty_dworld (Some {| maxsize := 0; queue := [VStr "a"; VStr "b"; VStr "c"] |})).
Proof.
  apply (sends_are_queued_in_order [VStr "b"; VStr "c"]
           (empty_dworld (Some {| maxsize := 0; queue := [VStr "a"] |}))
           {| maxsize := 0; queue := [VStr "a"] |} eq_refl).
  cbn. lia.
Defined.

(** X17: on a bounded queue that respects its bound, any run of sends,
    stopped by the first that raises, leaves a queue with the same bound
    that still respects it and that starts with the items it had, in
    order: [send] drops and reorders nothing, and the only exception it
    raises is [queue.Full]. *)
Theorem sends_respect_the_bound (messages : list value) (w : dworld) (q : Queue) :
  message_queue (self w) = Some q ->
  (0 < maxsize q)%Z ->
  (Z.of_nat (List.length (queue q)) <= maxsize q)%Z ->
  exists r q' added,
    for_each messages send w
    = (r, {| self := {| message_queue := Some q' |};
             directories := directories w; calls := calls w |}) /\
    (r = Returned tt \/ r = Raised Full) /\
    maxsize q' = maxsize q /\
    queue q' = queue q ++ added /\
    (Z.of_nat (List.length (queue q')) <= maxsize q')%Z.
Proof.
  revert w q. induction messages as [|m messages IH]; intros w q Hq Hpos Hle.
  - exists (Returned tt), q, []. destruct w as [[mq] dirs cs]. cbn in Hq. subst mq.
    rewrite app_nil_r. cbn. split; [reflexivity|]. split; [left; reflexivity|].
    split; [reflexivity|]. split; [reflexivity | exact Hle].
  - destruct w as [[mq] dirs cs]. cbn in Hq. subst mq.
    cbn [for_each]. unfold bind, send at 1. cbn [self message_queue]. unfold put_nowait.
    destruct ((0 <? maxsize q)%Z && (maxsize q <=? Z.of_nat (List.length (queue q)))%Z)
      eqn:Hfull.
    + exists (Raised Full), q, []. rewrite app_nil_r. cbn [directories calls].
      split; [reflexivity|]. split; [right; reflexivity|].
      split; [reflexivity|]. split; [reflexivity | exact Hle].
    + apply andb_false_iff in Hfull.
      assert (Hlt : (Z.of_nat (List.length (queue q)) < maxsize q)%Z).
      { destruct Hfull as [H|H]; [apply Z.ltb_ge in H; lia | apply Z.leb_gt in H; exact H]. }
      cbn [directories calls].
      destruct (IH {| self := {| message_queue :=
                                   Some {| maxsize := maxsize q; queue := queue q ++ [m] |} |};
                      directories := dirs; calls := cs |}
                  {| maxsize := maxsize q; queue := queue q ++ [m] |} eq_refl)
        as [r [q' [added [Hrun [Hr [Hmax [Hqueue Hle']]]]]]].
      * exact Hpos.
      * cbn [maxsize queue]. rewrite length_app. cbn [List.length]. lia.
      * exists r, q', (m :: added). cbn [directories calls] in Hrun.
        split; [exact Hrun|]. split; [exact Hr|]. split; [exact Hmax|].
        split; [|exact Hle']. rewrite Hqueue. cbn [queue]. rewrite <- app_assoc. reflexivity.
Qed.

Lemma sends_respect_the_bound_witness :
  exists r q' added,
    for_each [VStr "b"; VStr "c"; VStr "d"] send
      (empty_dworld (Some {| maxsize := 2; queue := [VStr "a"] |}))
    = (r, {| self := {| message_queue := Some q' |}; directories := []; calls := [] |}) /\
    queue q' = [VStr "a"] ++ added /\
    (Z.of_nat (List.length (queue q')) <= maxsize q')%Z.
Proof.
  destruct (sends_respect_the_bound [VStr "b"; VStr "c"; VStr "d"]
              (empty_dworld (Some {| maxsize := 2; queue := [VStr "a"] |}))
              {| maxsize := 2; queue := [VStr "a"] |} eq_refl)
    as [r [q' [added [H1 [_ [_ [H4 H5]]]]]]].
  - cbn. lia.
  - cbn. lia.
  - exists r, q', added. split; [exact H1|]. split; [exact H4 | exact H5].
Defined.

(** ** The phases of [chat] *)

(** [chat] up to the construction of the executor, when a workflow is given
    and the working directory can be made. *)
Lemma chat_with_workflow_eq (ext : Externals) (message : Message) (history : list value)
    (workflow connection_id : value) (d : string) (w : dworld) :
  workflow <> VNone ->
  makedirs_error ext (work_dir_of ext message d) = None ->
  chat ext message history workflow connection_id (Some d) w
  = (workflow_manager <-
       workflow_manager_init ext send workflow history (work_dir_of ext message d)
         connection_id ;;
     validated <- lift_sum (model_validate ext workflow) ;;
     message_text <-
       match content message with
       | VStr s => ret (strip ext s)
       | _ => raise (OtherException "AttributeError")
       end ;;
     log_call (CallRun message_text) ;;
     workflow_manager <- workflow_manager_run ext send workflow_manager message_text ;;
     output <- _generate_output ext message_text workflow_manager validated ;;
     meta <- lift_sum (json_dumps ext
               (metadata_of ext workflow_manager validated (work_dir_of ext message d))) ;;
     ret {| user_id := user_id message;
            role := "assistant";
            content := output;
            meta := VStr meta;
            session_id := session_id message |})
    (ready_to_construct ext message history workflow connection_id d w).
Proof.
  intros Hwf Hmk. unfold chat, os_makedirs, work_dir_of in *.
  unfold bind at 1. cbn [ret]. unfold bind at 1. rewrite Hmk. cbn [modify].
  destruct workflow; try contradiction; reflexivity.
Qed.

(** X18: [chat] returns a response only when every phase succeeded: a
    workflow and [user_dir] were given, the working directory could be
    made, the executor was constructed, the workflow validated, the
    request's content was a string, the run returned, [_generate_output]
    returned and [json.dumps] gave a string for the metadata.  The
    response is then exactly: the role "assistant", the user and session
    ids of the request, the output of [_generate_output] as content and the
    string [json.dumps] gave as meta; and the state is the one
    [_generate_output] left. *)
Theorem chat_response_echoes_request (ext : Externals) (message : Message)
    (history : list value) (workflow connection_id : value) (user_dir : option string)
    (w w' : dworld) (response : Message) :
  chat ext message history workflow connection_id user_dir w = (Returned response, w') ->
  workflow <> VNone /\
  exists d s constructed workflow_manager validated output js w2 w3,
    user_dir = Some d /\
    makedirs_error ext (work_dir_of ext message d) = None /\
    workflow_manager_init ext send workflow history (work_dir_of ext message d)
      connection_id (ready_to_construct ext message history workflow connection_id d w)
    = (Returned constructed, w2) /\
    model_validate ext workflow = inr validated /\
    content message = VStr s /\
    workflow_manager_run ext send constructed (strip ext s) (ready_to_run (strip ext s) w2)
    = (Returned workflow_manager, w3) /\
    _generate_output ext (strip ext s) workflow_manager validated w3
    = (Returned output, w') /\
    json_dumps ext
      (metadata_of ext workflow_manager validated (work_dir_of ext message d)) = inr js /\
    response = {| user_id := user_id message;
                  role := "assistant";
                  content := output;
                  meta := VStr js;
                  session_id := session_id message |}.
Proof.
  intros Hrun.
  destruct user_dir as [d|]; [|discriminate Hrun].
  destruct (makedirs_error ext (work_dir_of ext message d)) as [e|] eqn:Hmk.
  { unfold chat, os_makedirs, work_dir_of, bind in *. cbn in Hrun. rewrite Hmk in Hrun.
    discriminate Hrun. }
  assert (Hwf : workflow <> VNone).
  { intros ->. rewrite chat_without_workflow_eq, Hmk in Hrun. discriminate Hrun. }
  split; [exact Hwf|].
  rewrite (chat_with_workflow_eq ext message history workflow connection_id d w Hwf Hmk)
    in Hrun.
  unfold bind in Hrun.
  destruct (workflow_manager_init ext send workflow history _ connection_id _)
    as [[constructed| |] w2] eqn:Hinit; try discriminate Hrun.
  destruct (model_validate ext workflow) as [|validated] eqn:Hval; try discriminate Hrun.
  cbn [lift_sum ret] in Hrun.
  destruct (content message) as [| | | |s| |] eqn:Hcontent; try discriminate Hrun.
  cbn [ret log_call modify] in Hrun.
  fold (ready_to_run (strip ext s) w2) in Hrun.
  destruct (workflow_manager_run ext send constructed (strip ext s) _)
    as [[workflow_manager| |] w3] eqn:Hexec; try discriminate Hrun.
  destruct (_generate_output ext (strip ext s) workflow_manager validated w3)
    as [[output| |] w4] eqn:Hout; try discriminate Hrun.
  destruct (json_dumps ext _) as [|js] eqn:Hjson; try discriminate Hrun.
  cbn [lift_sum ret] in Hrun. injection Hrun as <- <-.
  exists d, s, constructed, workflow_manager, validated, output, js, w2, w3.
  repeat (split; [first [reflexivity | assumption]|]). reflexivity.
Qed.

Lemma chat_response_echoes_request_witness :
  chat example_externals example_message [] example_workflow VNone (Some "/data")
    (empty_dworld None)
  = (Returned {| user_id := VStr "u1"; role := "assistant"; content := VStr "hi";
                 meta := VStr "{}"; session_id := VStr "s1" |},
     {| self := {| message_queue := None |};
        directories := ["/data/s1/20240101_00-00-00"];
        calls := [CallWorkflowManager example_workflow [] "/data/s1/20240101_00-00-00" VNone;
                  CallRun " hello "] |}) /\
  example_workflow <> VNone.
Proof.
  split; [reflexivity|].
  exact (proj1 (chat_response_echoes_request example_externals example_message []
                  example_workflow VNone (Some "/data") (empty_dworld None)
                  {| self := {| message_queue := None |};
                     directories := ["/data/s1/20240101_00-00-00"];
                     calls := [CallWorkflowManager example_workflow []
                                 "/data/s1/20240101_00-00-00" VNone;
                               CallRun " hello "] |}
                  {| user_id := VStr "u1"; role := "assistant"; content := VStr "hi";
                     meta := VStr "{}"; session_id := VStr "s1" |}
                  eq_refl)).
Defined.


(** X20: an exception of the executor's run is not caught: [chat] raises
    it and leaves the state the run left.  The run was given the request's
    content stripped, after the working directory was made, the executor
    constructed and the workflow validated. *)
Theorem chat_propagates_executor_failure (ext : Externals) (message : Message)
    (history : list value) (workflow connection_id : value) (d s : string)
    (workflow_manager : WorkflowManager) (validated : Workflow) (e : exn)
    (w w2 w3 : dworld) :
  workflow <> VNone ->
  makedirs_error ext (work_dir_of ext message d) = None ->
  workflow_manager_init ext send workflow history (work_dir_of ext message d) connection_id
    (ready_to_construct ext message history workflow connection_id d w)
  = (Returned workflow_manager, w2) ->
  model_validate ext workflow = inr validated ->
  content message = VStr s ->
  workflow_manager_run ext send workflow_manager (strip ext s)
    (ready_to_run (strip ext s) w2) = (Raised e, w3) ->
  chat ext message history workflow connection_id (Some d) w = (Raised e, w3).
Proof.
  intros Hwf Hmk Hinit Hval Hcontent Hfail.
  rewrite (chat_with_workflow_eq ext message history workflow connection_id d w Hwf Hmk).
  unfold bind. rewrite Hinit, Hval. cbn [lift_sum ret]. rewrite Hcontent.
  cbn [ret log_call modify]. unfold ready_to_run in Hfail. rewrite Hfail. reflexivity.
Qed.

Lemma chat_propagates_executor_failure_witness :
  chat example_externals_failing_run example_message [] example_workflow VNone
    (Some "/data") (empty_dworld None)
  = (Raised (OtherException "RuntimeError"),
     {| self := {| message_queue := None |};
        directories := ["/data/s1/20240101_00-00-00"];
        calls := [CallWorkflowManager example_workflow [] "/data/s1/20240101_00-00-00" VNone;
                  CallRun " hello "] |}).
Proof.
  apply (chat_propagates_executor_failure example_externals_failing_run example_message []
           example_workflow VNone "/data" " hello "
           {| agent_history := []; receiver_client := VNone; connection_id := VNone |}
           {| summary_method := VStr "last" |} (OtherException "RuntimeError")
           (empty_dworld None)
           (ready_to_construct example_externals_failing_run example_message []
              example_workflow VNone "/data" (empty_dworld None))).
  - discriminate.
  - reflexivity.
  - reflexivity.
  - reflexivity.
  - reflexivity.
  - reflexivity.
Defined.

(** X21: when every phase succeeds, [chat] returns one response whose
    content is what [_generate_output] made of the stripped request text
    and the executor after its run, and whose meta is [json.dumps] of the
    metadata: the executor's trace as it is, the summary method, the time
    between the two clock readings and the files changed in the working
    directory; the state is the one [_generate_output] left. *)
Theorem chat_success_path (ext : Externals) (message : Message)
    (history : list value) (workflow connection_id : value) (d s js : string)
    (constructed workflow_manager : WorkflowManager) (validated : Workflow)
    (output : value) (w w2 w3 w4 : dworld) :
  workflow <> VNone ->
  makedirs_error ext (work_dir_of ext message d) = None ->
  workflow_manager_init ext send workflow history (work_dir_of ext message d) connection_id
    (ready_to_construct ext message history workflow connection_id d w)
  = (Returned constructed, w2) ->
  model_validate ext workflow = inr validated ->
  content message = VStr s ->
  workflow_manager_run ext send constructed (strip ext s) (ready_to_run (strip ext s) w2)
  = (Returned workflow_manager, w3) ->
  _generate_output ext (strip ext s) workflow_manager validated w3 = (Returned output, w4) ->
  json_dumps ext
    (VDict [("messages", VList (agent_history workflow_manager));
            ("summary_method", summary_method validated);
            ("time", VFloat (PrimFloat.sub (end_time ext) (start_time ext)));
            ("files", get_modified_files ext (start_time ext) (end_time ext)
                        (work_dir_of ext message d))]) = inr js ->
  chat ext message history workflow connection_id (Some d) w
  = (Returned {| user_id := user_id message;
                 role := "assistant";
                 content := output;
                 meta := VStr js;
                 session_id := session_id message |}, w4).
Proof.
  intros Hwf Hmk Hinit Hval Hcontent Hrun Hout Hjson.
  rewrite (chat_with_workflow_eq ext message history workflow connection_id d w Hwf Hmk).
  unfold bind. rewrite Hinit, Hval. cbn [lift_sum ret]. rewrite Hcontent.
  cbn [ret log_call modify]. unfold ready_to_run in Hrun. rewrite Hrun, Hout.
  unfold metadata_of. rewrite Hjson. reflexivity.
Qed.

Lemma chat_success_path_witness :
  chat example_externals example_message [] example_workflow VNone (Some "/data")
    (empty_dworld None)
  = (Returned {| user_id := VStr "u1"; role := "assistant"; content := VStr "hi";
                 meta := VStr "{}"; session_id := VStr "s1" |},
     ready_to_run " hello "
       (ready_to_construct example_externals example_message [] example_workflow VNone
          "/data" (empty_dworld None))).
Proof.
  apply (chat_success_path example_externals example_message [] example_workflow VNone
           "/data" " hello " "{}"
           {| agent_history := []; receiver_client := VNone; connection_id := VNone |}
           {| agent_history := [entry_with_content "hi"];
              receiver_client := VNone; connection_id := VNone |}
           {| summary_method := VStr "last" |} (VStr "hi") (empty_dworld None)
           (ready_to_construct example_externals example_message [] example_workflow VNone
              "/data" (empty_dworld None))
           (ready_to_run " hello "
              (ready_to_construct example_externals example_message [] example_workflow
                 VNone "/data" (empty_dworld None)))
           (ready_to_run " hello "
              (ready_to_construct example_externals example_message [] example_workflow
                 VNone "/data" (empty_dworld None)))).
  - discriminate.
  - reflexivity.
  - reflexivity.
  - reflexivity.
  - reflexivity.
  - reflexivity.
  - reflexivity.
  - reflexivity.
Defined.

(** * What only connect can do *)

Lemma filter_filter_and {A : Type} (f g : A -> bool) (l : list A) :
  filter g (filter f l) = filter (fun x => f x && g x) l.
Proof.
  induction l as [|x l IH]; [reflexivity|].
  cbn. destruct (f x); cbn; [destruct (g x)|]; rewrite IH; reflexivity.
Qed.

Lemma filter_shorter {A : Type} (f : A -> bool) (l : list A) :
  List.length (filter f l) <= List.length l.
Proof. induction l as [|x l IH]; [apply le_n|]. cbn. destruct (f x); cbn; lia. Qed.

Lemma NoDup_handles_filter (f : WebSocket * string -> bool) l :
  NoDup (handles l) -> NoDup (handles (filter f l)).
Proof.
  induction l as [|[h c] l IH]; intros Hnd; [constructor|].
  cbn in Hnd. inversion Hnd as [|x xs Hnot Hnd']. subst.
  cbn [filter]. destruct (f (h, c)); [|apply IH, Hnd'].
  cbn. constructor; [|apply IH, Hnd'].
  intros Hin. apply Hnot. unfold handles in Hin. apply in_map_iff in Hin.
  destruct Hin as [conn [Heq Hin]]. apply filter_In in Hin.
  rewrite <- Heq. apply in_map. tauto.
Qed.

Lemma disconnect_each_mk_world (snapshot : list (WebSocket * string)) : forall l t,
  exists f t',
    for_each snapshot (fun conn => disconnect (fst conn)) (mk_world l t)
    = (Returned tt, mk_world (filter f l) t').
Proof.
  induction snapshot as [|conn snapshot IH]; intros l t.
  - exists (fun _ => true), t. rewrite filter_const_true. reflexivity.
  - cbn [for_each]. unfold bind. rewrite disconnect_mk_world.
    destruct (IH (without (fst conn) l) (t ++ [EvAcquire; EvRemove (fst conn); EvRelease]))
      as [f [t' Hrun]].
    rewrite Hrun. unfold without. rewrite filter_filter_and.
    eexists. eexists. reflexivity.
Qed.

(** Every method but connect turns the registry into a selection of its
    entries. *)
Lemma run_request_selects tr (r : request) l t :
  (forall websocket client_id, r <> ReqConnect websocket client_id) ->
  exists f t', run_request tr r (mk_world l t) = (Returned tt, mk_world (filter f l) t').
Proof.
  intros Hnc. destruct r as [websocket client_id|websocket| |message websocket|message];
    cbn [run_request].
  - exfalso. apply (Hnc websocket client_id). reflexivity.
  - rewrite disconnect_mk_world. eexists. eexists. reflexivity.
  - unfold disconnect_all, bind, gets. cbn [mk_world manager active_connections].
    fold (mk_world l t). apply disconnect_each_mk_world.
  - rewrite send_message_mk_world. destruct (send_json tr message websocket).
    + eexists. eexists. reflexivity.
    + exists (fun _ => true). rewrite filter_const_true. eexists. reflexivity.
  - rewrite broadcast_mk_world. eexists. eexists. reflexivity.
Qed.

(** X22: on a registry whose lock is free, every method other than connect
    returns without raising and adds no entry: what is left is a selection
    of the entries that were there, in their order, so the registry does not
    grow and handles that were not duplicated are not duplicated after;
    the lock is free again. *)
Theorem only_connect_adds_entries (tr : Transport) (r : request) (w : world) :
  lock_free w ->
  (forall websocket client_id, r <> ReqConnect websocket client_id) ->
  exists w' f,
    run_request tr r w = (Returned tt, w') /\
    registry w' = filter f (registry w) /\
    incl (registry w') (registry w) /\
    List.length (registry w') <= List.length (registry w) /\
    (NoDup (handles (registry w)) -> NoDup (handles (registry w'))) /\
    lock_free w'.
Proof.
  intros Hfree Hnc. free_world Hfree.
  destruct (run_request_selects tr r l t Hnc) as [f [t' Hrun]].
  exists (mk_world (filter f l) t'), f. split; [exact Hrun|].
  cbn [registry mk_world manager active_connections].
  split; [reflexivity|]. split; [apply incl_filter|]. split; [apply filter_shorter|].
  split; [apply NoDup_handles_filter | apply mk_world_lock_free].
Qed.

Lemma only_connect_adds_entries_witness :
  exists w' f,
    run_request healthy ReqDisconnectAll (mk_world [(1, "a"); (2, "b")] [])
    = (Returned tt, w') /\
    registry w' = filter f [(1, "a"); (2, "b")] /\
    List.length (registry w') <= 2.
Proof.
  destruct (only_connect_adds_entries healthy ReqDisconnectAll
              (mk_world [(1, "a"); (2, "b")] []) eq_refl)
    as [w' [f [H1 [H2 [_ [H4 _]]]]]].
  - intros websocket client_id. discriminate.
  - exists w', f. split; [exact H1|]. split; [exact H2 | exact H4].
Defined.
